(** * Drift-detection ensemble: a shallow embedding of
    [src/monitoring/advanced_drift_detector.py] and
    [src/monitoring/drift/drift_service.py].

    Python floats are IEEE binary64 numbers and are modelled by Rocq's
    primitive floats, so every sum, product, quotient and comparison below
    rounds exactly as the Python code does.  Exceptions are modelled by an
    error monad; Python dictionaries, whose iteration order is the insertion
    order, by association lists.  The routines of scipy, numpy, pandas and
    scikit-learn that the detectors call are not part of the repository: they
    are the fields of a record [Lib], and every statement about the detectors
    is made for an arbitrary such library. *)

From Stdlib Require Import Floats ZArith List String Ascii Bool Lia.
From Stdlib Require Import DecimalString.
Import ListNotations.

Set Warnings "-inexact-float".
Set Implicit Arguments.

Local Open Scope string_scope.
Local Open Scope list_scope.

(* ===================================================================== *)
(** ** Python values: exceptions, floats, dictionaries                     *)
(* ===================================================================== *)

Module Py.

(** The exception classes that matter to the [except] clauses of the source:
    [except ImportError] and [except Exception].  [KeyboardInterrupt] and
    [SystemExit] derive from [BaseException] only. *)
Inductive exn_class : Type :=
| ImportError
| KeyError
| ValueError
| TypeError
| LinAlgError
| NameError
| OtherException
| KeyboardInterrupt
| SystemExit.

(** [isinstance(e, ImportError)] *)
Definition is_ImportError (c : exn_class) : bool :=
  match c with ImportError => true | _ => false end.

(** [isinstance(e, Exception)] *)
Definition is_Exception (c : exn_class) : bool :=
  match c with KeyboardInterrupt | SystemExit => false | _ => true end.

(** A raised exception: its class and [str(e)]. *)
Record exn : Type := Exn { exn_cls : exn_class; exn_str : string }.

(** The result of running a piece of Python code. *)
Inductive outcome (A : Type) : Type :=
| Returned (a : A)
| Raised (e : exn).

Arguments Returned {A} a.
Arguments Raised {A} e.

Definition bind {A B : Type} (m : outcome A) (k : A -> outcome B) : outcome B :=
  match m with
  | Returned a => k a
  | Raised e => Raised e
  end.

(** [try: body  except <classes> as e: handler e] *)
Definition try_except {A : Type} (body : outcome A)
           (catches : exn_class -> bool) (handler : exn -> outcome A) : outcome A :=
  match body with
  | Returned a => Returned a
  | Raised e => if catches (exn_cls e) then handler e else Raised e
  end.


(** *** Dictionaries keyed by strings, in insertion order *)

Definition dict (V : Type) : Type := list (string * V).

(** [d.get(k)] / [k in d] *)
Fixpoint get {V : Type} (k : string) (d : dict V) : option V :=
  match d with
  | [] => None
  | (k', v) :: d' => if String.eqb k k' then Some v else get k d'
  end.

(** [d[k] = v]: an existing key keeps its place, a new one goes last. *)
Fixpoint set {V : Type} (k : string) (v : V) (d : dict V) : dict V :=
  match d with
  | [] => [(k, v)]
  | (k', v') :: d' =>
      if String.eqb k k' then (k, v) :: d' else (k', v') :: set k v d'
  end.

(** [d.values()] *)
Definition values {V : Type} (d : dict V) : list V := map snd d.

(** [d[k]], which raises [KeyError] on a missing key; [str] of a [KeyError]
    is the [repr] of the key. *)
Definition subscript {V : Type} (d : dict V) (k : string) : outcome V :=
  match get k d with
  | Some v => Returned v
  | None => Raised (Exn KeyError ("'" ++ k ++ "'"))
  end.

(** *** Floats *)

Local Open Scope float_scope.

(** Python's [a > b] on floats. *)
Definition gt (a b : float) : bool := b <? a.

(** Python's [a < b] on floats. *)
Definition lt (a b : float) : bool := a <? b.

(** [max(xs)] on a non-empty sequence: the first element is kept until a
    strictly greater one is met. *)
Definition max_of (x : float) (xs : list float) : float :=
  fold_left (fun m y => if gt y m then y else m) xs x.

(** [min(a, b)]: [b] only when it is strictly smaller than [a]. *)
Definition min2 (a b : float) : float := if lt b a then b else a.

(** An [int] used where the arithmetic is done in floats. *)
Definition float_of_nat (n : nat) : float :=
  PrimFloat.of_uint63 (Uint63.of_Z (Z.of_nat n)).

(** [str(n)] for a non-negative [int]. *)
Definition str_of_nat (n : nat) : string :=
  NilEmpty.string_of_uint (Nat.to_uint n).

(** [sep.join(parts)] *)
Definition join (sep : string) (parts : list string) : string :=
  String.concat sep parts.

(** [needle in hay] on strings. *)
Fixpoint contains (needle hay : string) : bool :=
  if String.prefix needle hay then true
  else match hay with
       | EmptyString => false
       | String _ hay' => contains needle hay'
       end.

End Py.

Import Py.

Declare Scope py_scope.
Delimit Scope py_scope with py.
Notation "x <- m ;; k" := (Py.bind m (fun x => k))
  (at level 61, m at next level, right associativity) : py_scope.
Notation "' pat <- m ;; k" := (Py.bind m (fun x => match x with pat => k end))
  (at level 61, pat pattern, m at next level, right associativity) : py_scope.
Local Open Scope py_scope.

(* ===================================================================== *)
(** ** Data frames                                                         *)
(* ===================================================================== *)

(** The dtype of a column.  Only [float64] and [int64] pass the test
    [dtype in ["float64", "int64"]] of the per-column detectors. *)
Inductive dtype : Type :=
| float64
| int64
| object_
| other_dtype (name : string).

(** [s.dtype in ["float64", "int64"]] *)
Definition is_numeric (d : dtype) : bool :=
  match d with float64 | int64 => true | _ => false end.

(** A cell of a column: a number (the integers of an [int64] column are
    written as floats), a string, or a missing value. *)
Inductive cell : Type :=
| Num (x : float)
| Str (s : string)
| Missing.

Record Series : Type := mkSeries { s_dtype : dtype; s_values : list cell }.

(** [s.dropna()]: missing values and NaN are removed. *)
Definition is_na (c : cell) : bool :=
  match c with
  | Num x => PrimFloat.is_nan x
  | Str _ => false
  | Missing => true
  end.

Definition dropna (s : Series) : Series :=
  mkSeries (s_dtype s) (filter (fun c => negb (is_na c)) (s_values s)).

(** A frame: its row count (the index) and its columns, in order.  Column
    labels are taken to be distinct, as they are for the frames
    [pd.DataFrame(records)] builds. *)
Record DataFrame : Type := mkFrame { nrows : nat; cols : Py.dict Series }.

(** [df.columns] *)
Definition columns (df : DataFrame) : list string := map fst (cols df).

(** [df[column]] *)
Definition column (df : DataFrame) (c : string) : outcome Series :=
  Py.subscript (cols df) c.

(** [len(df)]: the number of rows. *)
Definition len_df (df : DataFrame) : nat := nrows df.

(** [df.drop(columns=[c])], which raises [KeyError] when [c] is no column. *)
Definition drop_column (df : DataFrame) (c : string) : outcome DataFrame :=
  match Py.get c (cols df) with
  | Some _ =>
      Returned (mkFrame (nrows df)
                        (filter (fun kv => negb (String.eqb (fst kv) c)) (cols df)))
  | None => Raised (Exn KeyError ("['" ++ c ++ "'] not found in axis"))
  end.

(* ===================================================================== *)
(** ** The external routines                                               *)
(* ===================================================================== *)

(** What the detectors call in scipy, numpy, pandas and scikit-learn, with
    the arguments the source fixes ([bins=10], [random_state=42],
    [contamination=0.1], [RBF(length_scale=1.0)], [cv=5], ...) built in.  A
    routine that can raise returns an [outcome]. *)
Record Lib : Type := mkLib {
  (** [stats.ks_2samp(a, b)]: statistic and p-value *)
  ks_2samp : Series -> Series -> outcome (float * float);
  (** [np.histogram_bin_edges(a, bins=10)] *)
  histogram_bin_edges : Series -> outcome (list float);
  (** [np.histogram(a, bins=edges)[0]]: the counts *)
  histogram : Series -> list float -> outcome (list float);
  (** [np.log], elementwise *)
  np_log : float -> float;
  (** [np.sum] of a one-dimensional array *)
  np_sum : list float -> float;
  (** [arr.mean()] of the flattened array *)
  np_mean : list float -> float;
  (** the two imports at the head of [_mmd_drift] *)
  import_kernels : outcome unit;
  (** [df.sample(n, random_state=42)] *)
  df_sample : DataFrame -> nat -> outcome DataFrame;
  (** [pairwise_kernels(a, b, metric=RBF(length_scale=1.0))] *)
  pairwise_kernels : DataFrame -> DataFrame -> outcome (list (list float));
  (** [IsolationForest(contamination=0.1, random_state=42).fit(df)]; the
      fitted model is its [predict] *)
  IsolationForest_fit : DataFrame -> outcome (DataFrame -> outcome (list Z));
  (** [EllipticEnvelope(contamination=0.1, random_state=42).fit(df)] *)
  EllipticEnvelope_fit : DataFrame -> outcome (DataFrame -> outcome (list Z));
  (** the two imports at the head of [_classifier_drift] *)
  import_classifier : outcome unit;
  (** [pd.concat([a, b], ignore_index=True)] *)
  pd_concat : DataFrame -> DataFrame -> outcome DataFrame;
  (** [cross_val_score(RandomForestClassifier(n_estimators=50,
      random_state=42), X, y, cv=5, scoring="roc_auc")] *)
  cross_val_score : DataFrame -> list float -> outcome (list float)
}.

(* ===================================================================== *)
(** ** [advanced_drift_detector.py]                                      *)
(* ===================================================================== *)

Module Detector.

(** *** Method results and the drift result *)

(** The dictionary a detector returns.  A key that is absent is [None]. *)
Record MethodResult : Type := mkResult {
  mr_drift_detected : option bool;
  mr_drift_score : option float;
  mr_p_values : option (Py.dict float);
  mr_psi_scores : option (Py.dict float);
  mr_method : option string;
  mr_error : option string
}.

(** [results]: method name to method result, in insertion order. *)
Definition Results : Type := Py.dict MethodResult.

Record DriftResult : Type := mkDriftResult {
  drift_detected : bool;
  drift_score : float;
  drift_type : string;
  features_affected : list string;
  confidence : float;
  metadata : Py.dict Results
}.

(** The dictionary of a detector's [except] branch:
    [{"drift_detected": False, "drift_score": 0.0, "method": m, "error": msg}]. *)
Definition error_result (m msg : string) : MethodResult :=
  mkResult (Some false) (Some 0%float) None None (Some m) (Some msg).

(** [{"drift_detected": d, "drift_score": s, "method": m}] *)
Definition plain_result (m : string) (d : bool) (s : float) : MethodResult :=
  mkResult (Some d) (Some s) None None (Some m) None.

(** *** The detectors of [MultiModalDriftDetector] *)

(** A [for] loop whose body may raise. *)
Fixpoint for_each {A S : Type} (body : S -> A -> outcome S) (xs : list A) (s : S)
  : outcome S :=
  match xs with
  | [] => Returned s
  | x :: xs' => s' <- body s x ;; for_each body xs' s'
  end.

(** Elementwise arithmetic of two numpy arrays of one shape. *)
Fixpoint map2 {A B C : Type} (f : A -> B -> C) (xs : list A) (ys : list B) : list C :=
  match xs, ys with
  | x :: xs', y :: ys' => f x y :: map2 f xs' ys'
  | _, _ => []
  end.

(** [(labels == -1).mean()]; the mean of an empty array is NaN. *)
Definition ratio_of_minus_one (labels : list Z) : float :=
  (Py.float_of_nat (List.length (filter (fun z => Z.eqb z (-1)) labels))
   / Py.float_of_nat (List.length labels))%float.

(** [if target_column:] on an [Optional[str]]: [None] and the empty string
    are false. *)
Definition truthy (target_column : option string) : bool :=
  match target_column with
  | None => false
  | Some s => negb (String.eqb s "")
  end.

(** [self.config] is all the state a detector has; [self.detectors], the
    table of bound methods built by [__init__], is read nowhere. *)
Record MultiModalDriftDetector : Type := mkDetector {
  config : Py.dict float
}.

Section Detectors.

Variable L : Lib.

(** The body of the loop of [_ks_test_drift]; the state is
    [(drift_scores, p_values)]. *)
Definition ks_body (reference current : DataFrame)
           (st : Py.dict float * Py.dict float) (c : string)
  : outcome (Py.dict float * Py.dict float) :=
  s <- column reference c ;;
  if is_numeric (s_dtype s) then
    r <- column reference c ;;
    cur <- column current c ;;
    ' (stat, p_value) <- ks_2samp L (dropna r) (dropna cur) ;;
    Returned (Py.set c stat (fst st), Py.set c p_value (snd st))
  else Returned st.

Definition _ks_test_drift (reference current : DataFrame) : outcome MethodResult :=
  ' (drift_scores, p_values) <-
      for_each (ks_body reference current) (columns reference) ([], []) ;;
  let overall_drift := existsb (fun p => Py.lt p 0.05%float) (Py.values p_values) in
  let overall_score :=
    match Py.values drift_scores with
    | x :: xs => Py.max_of x xs
    | [] => 0%float
    end in
  Returned (mkResult (Some overall_drift) (Some overall_score)
                     (Some p_values) None (Some "ks_test") None).

(** The body of the loop of [_psi_drift]; the state is [psi_scores]. *)
Definition psi_body (reference current : DataFrame)
           (psi_scores : Py.dict float) (c : string) : outcome (Py.dict float) :=
  s <- column reference c ;;
  if is_numeric (s_dtype s) then
    r <- column reference c ;;
    bins <- histogram_bin_edges L (dropna r) ;;
    r' <- column reference c ;;
    ref_freq <- histogram L (dropna r') bins ;;
    cur <- column current c ;;
    curr_freq <- histogram L (dropna cur) bins ;;
    let ref_freq := map (fun x => x + 0.0001)%float ref_freq in
    let curr_freq := map (fun x => x + 0.0001)%float curr_freq in
    let psi :=
      np_sum L (map2 (fun cf rf => (cf - rf) * np_log L (cf / rf))%float
                     curr_freq ref_freq) in
    Returned (Py.set c psi psi_scores)
  else Returned psi_scores.

Definition _psi_drift (reference current : DataFrame) : outcome MethodResult :=
  psi_scores <- for_each (psi_body reference current) (columns reference) [] ;;
  let significant_drift :=
    existsb (fun psi => Py.gt psi 0.1%float) (Py.values psi_scores) in
  let overall_score :=
    match Py.values psi_scores with
    | x :: xs => Py.max_of x xs
    | [] => 0%float
    end in
  Returned (mkResult (Some significant_drift) (Some overall_score)
                     None (Some psi_scores) (Some "psi") None).

Definition _mmd_drift (reference current : DataFrame) : outcome MethodResult :=
  Py.try_except
    (_ <- import_kernels L ;;
     ref_sample <- df_sample L reference (Nat.min 1000 (len_df reference)) ;;
     curr_sample <- df_sample L current (Nat.min 1000 (len_df current)) ;;
     K_ref <- pairwise_kernels L ref_sample ref_sample ;;
     K_curr <- pairwise_kernels L curr_sample curr_sample ;;
     K_cross <- pairwise_kernels L ref_sample curr_sample ;;
     let mmd :=
       (np_mean L (List.concat K_ref) + np_mean L (List.concat K_curr)
        - 2 * np_mean L (List.concat K_cross))%float in
     Returned (plain_result "mmd" (Py.gt mmd 0.05%float) mmd))
    Py.is_ImportError
    (fun _ => Returned (error_result "mmd" "scikit-learn not available")).

Definition _isolation_forest_drift (reference current : DataFrame)
  : outcome MethodResult :=
  predict <- IsolationForest_fit L reference ;;
  anomalies <- predict current ;;
  let anomaly_ratio := ratio_of_minus_one anomalies in
  Returned (plain_result "isolation_forest"
                         (Py.gt anomaly_ratio 0.15%float) anomaly_ratio).

Definition _covariance_drift (reference current : DataFrame) : outcome MethodResult :=
  Py.try_except
    (predict <- EllipticEnvelope_fit L reference ;;
     outliers <- predict current ;;
     let outlier_ratio := ratio_of_minus_one outliers in
     Returned (plain_result "covariance_drift"
                            (Py.gt outlier_ratio 0.2%float) outlier_ratio))
    Py.is_Exception
    (fun e => Returned (error_result "covariance_drift" (exn_str e))).

Definition _classifier_drift (reference current : DataFrame) (target_column : string)
  : outcome MethodResult :=
  Py.try_except
    (_ <- import_classifier L ;;
     X_ref <- drop_column reference target_column ;;
     let y_ref := repeat 0%float (len_df X_ref) in
     X_curr <- drop_column current target_column ;;
     let y_curr := repeat 1%float (len_df X_curr) in
     X_combined <- pd_concat L X_ref X_curr ;;
     let y_combined := y_ref ++ y_curr in
     scores <- cross_val_score L X_combined y_combined ;;
     let mean_auc := np_mean L scores in
     Returned (plain_result "classifier_drift" (Py.gt mean_auc 0.7%float) mean_auc))
    Py.is_Exception
    (fun e => Returned (error_result "classifier_drift" (exn_str e))).

End Detectors.

(** *** The ensemble *)

(** The literal [weights] of [_ensemble_detection]. *)
Definition weights : Py.dict float :=
  [ ("ks_test", 0.2%float);
    ("psi", 0.25%float);
    ("mmd", 0.2%float);
    ("isolation_forest", 0.15%float);
    ("covariance_drift", 0.1%float);
    ("classifier_drift", 0.1%float) ].

(** [weights.get(method, 0.1)] *)
Definition weight_of (method : string) : float :=
  match Py.get method weights with
  | Some w => w
  | None => 0.1%float
  end.

(** The variables the loop of [_ensemble_detection] updates.  The three
    numbers start as the [int] 0, which adds and compares as the float 0.0.
    [features_affected] is a Python [set]; it is kept here in insertion
    order without repetition (the order in which Python lists a set is not
    specified). *)
Record Tally : Type := mkTally {
  total_weight : float;
  weighted_score : float;
  drift_votes : float;
  features : list string
}.

Definition tally0 : Tally := mkTally 0 0 0 [].

(** [s.update(xs)] *)
Definition set_update (s xs : list string) : list string :=
  fold_left (fun acc x => if existsb (String.eqb x) acc then acc else acc ++ [x]) xs s.

(** [result.get("drift_detected", False)] *)
Definition detected (result : MethodResult) : bool :=
  match mr_drift_detected result with
  | Some d => d
  | None => false
  end.

(** One turn of [for method, result in results.items()]. *)
Definition tally_step (t : Tally) (item : string * MethodResult) : Tally :=
  let (method, result) := item in
  let votes :=
    if detected result
    then (drift_votes t + weight_of method)%float
    else drift_votes t in
  let (wscore, tweight) :=
    match mr_drift_score result with
    | Some s =>
        ((weighted_score t + s * weight_of method)%float,
         (total_weight t + weight_of method)%float)
    | None => (weighted_score t, total_weight t)
    end in
  let feats :=
    match mr_psi_scores result with
    | Some psi_scores =>
        let high_psi_features :=
          map fst (filter (fun kv => Py.gt (snd kv) 0.1%float) psi_scores) in
        set_update (features t) high_psi_features
    | None => features t
    end in
  mkTally tweight wscore votes feats.

Definition tally (results : Results) : Tally := fold_left tally_step results tally0.

(** [any(results[m]["drift_detected"] for m in methods if m in results)];
    [any] stops at the first true value. *)
Fixpoint any_detected (results : Results) (methods : list string) : outcome bool :=
  match methods with
  | [] => Returned false
  | m :: ms =>
      match Py.get m results with
      | None => any_detected results ms
      | Some r =>
          match mr_drift_detected r with
          | None => Raised (Exn KeyError "'drift_detected'")
          | Some true => Returned true
          | Some false => any_detected results ms
          end
      end
  end.

Definition _determine_drift_type (results : Results) (reference current : DataFrame)
  : outcome string :=
  covariate_drift <- any_detected results ["ks_test"; "psi"; "mmd"] ;;
  let concept_drift :=
    match Py.get "classifier_drift" results with
    | Some r => detected r
    | None => false
    end in
  if covariate_drift && concept_drift then Returned "covariate_and_concept_drift"
  else if covariate_drift then Returned "covariate_drift"
  else if concept_drift then Returned "concept_drift"
  else Returned "no_drift".

Definition _ensemble_detection (self : MultiModalDriftDetector) (results : Results)
           (reference current : DataFrame) : outcome DriftResult :=
  let t := tally results in
  let ensemble_score :=
    if Py.gt (total_weight t) 0 then (weighted_score t / total_weight t)%float
    else 0%float in
  let ensemble_drift := Py.gt (drift_votes t) 0.5%float in
  drift_type <- _determine_drift_type results reference current ;;
  Returned (mkDriftResult ensemble_drift ensemble_score drift_type (features t)
                          (Py.min2 ensemble_score 1%float)
                          [("individual_results", results)]).

Definition detect_drift (L : Lib) (self : MultiModalDriftDetector)
           (reference_data current_data : DataFrame) (target_column : option string)
  : outcome DriftResult :=
  ks <- _ks_test_drift L reference_data current_data ;;
  psi <- _psi_drift L reference_data current_data ;;
  mmd <- _mmd_drift L reference_data current_data ;;
  iforest <- _isolation_forest_drift L reference_data current_data ;;
  cov <- _covariance_drift L reference_data current_data ;;
  let results :=
    [ ("ks_test", ks); ("psi", psi); ("mmd", mmd);
      ("isolation_forest", iforest); ("covariance_drift", cov) ] in
  results <-
    match target_column with
    | Some target =>
        if truthy target_column then
          clf <- _classifier_drift L reference_data current_data target ;;
          Returned (results ++ [("classifier_drift", clf)])
        else Returned results
    | None => Returned results
    end ;;
  _ensemble_detection self results reference_data current_data.

End Detector.

(* ===================================================================== *)
(** ** [drift/drift_service.py]                                            *)
(* ===================================================================== *)

Module Service.

Import Detector.

Record DriftDetectionRequest : Type := mkRequest {
  model_name : string;
  current_data : list (Py.dict cell);
  reference_data_id : string;
  detection_config : Py.dict float
}.

Record DriftDetectionResponse : Type := mkResponse {
  drift_detected : bool;
  drift_score : float;
  drift_type : string;
  features_affected : list string;
  confidence : float;
  recommendation : string
}.

(** The attributes of a [DriftDetectionService]. *)
Record DriftDetectionService : Type := mkService {
  detectors : Py.dict MultiModalDriftDetector;
  reference_data_cache : Py.dict DataFrame
}.

(** The collaborators of the service: pandas' frame constructor, the MLflow
    client, the Prometheus gauges and the MLflow run log. *)
Record Env : Type := mkEnv {
  (** [pd.DataFrame(records)] *)
  DataFrame_of_records : list (Py.dict cell) -> outcome DataFrame;
  (** the global name [MultiModalDriftDetector]: the module has no import
      for it, so it is the class of [advanced_drift_detector.py] when the
      name has been bound from outside, and a [NameError] otherwise *)
  MultiModalDriftDetector_name : outcome unit;
  (** [mlflow.tracking.MlflowClient()] *)
  MlflowClient : outcome unit;
  (** [gauge.labels(...).set(value)] *)
  gauge_set : string -> list string -> float -> outcome unit;
  (** the [n]-th draw of [np.random.uniform(0.8, 1.2)] *)
  random_uniform : nat -> float;
  (** the [with mlflow.start_run(...)] block of [log_to_mlflow] *)
  mlflow_log_run : string -> Detector.DriftResult -> outcome unit
}.

Definition generate_recommendation (result : Detector.DriftResult) : string :=
  if negb (Detector.drift_detected result) then
    "No action needed. Model performance is stable."
  else
    let recommendations : list string := [] in
    let recommendations :=
      if Py.contains "covariate_drift" (Detector.drift_type result) then
        recommendations ++
          [ ("Retrain model with new data distribution. "
             ++ Py.str_of_nat (List.length (Detector.features_affected result))
             ++ " features affected.")%string ]
      else recommendations in
    let recommendations :=
      if Py.contains "concept_drift" (Detector.drift_type result) then
        recommendations ++
          [ "Consider updating model architecture or features to adapt to concept drift." ]
      else recommendations in
    let recommendations :=
      if Py.gt (Detector.drift_score result) 0.8%float then
        recommendations ++
          [ "URGENT: Significant drift detected. Consider immediate model retraining and evaluation." ]
      else recommendations in
    let recommendations :=
      match Detector.features_affected result with
      | [] => recommendations
      | _ :: _ =>
          recommendations ++
            [ ("Focus on features: "
               ++ Py.join ", " (firstn 5 (Detector.features_affected result)))%string ]
      end in
    match recommendations with
    | [] => "Monitor closely."
    | _ :: _ => Py.join " | " recommendations
    end.

Section WithEnv.

Variable L : Lib.
Variable E : Env.

(** [load_reference_data]: the cache, else a placeholder frame that is put
    in the cache; an exception of the [try] block is logged and raised again. *)
Definition load_reference_data (self : DriftDetectionService) (reference_data_id : string)
  : DriftDetectionService * outcome DataFrame :=
  match Py.get reference_data_id (reference_data_cache self) with
  | Some df => (self, Returned df)
  | None =>
      match MlflowClient E with
      | Returned _ =>
          let reference_df := mkFrame 0 [] in
          (mkService (detectors self)
                     (Py.set reference_data_id reference_df (reference_data_cache self)),
           Returned reference_df)
      | Raised e => (self, Raised e)
      end
  end.

(** [update_metrics]; the second component of the loop state counts the
    random draws. *)
Definition update_metrics (model_name : string) (result : Detector.DriftResult)
           (features : list string) : outcome unit :=
  _ <- gauge_set E "drift_score" [model_name] (Detector.drift_score result) ;;
  _ <- gauge_set E "drift_detected" [model_name]
         (if Detector.drift_detected result then 1 else 0)%float ;;
  _ <- for_each
         (fun n feature =>
            _ <- gauge_set E "feature_drift_score" [model_name; feature]
                   (Detector.drift_score result * random_uniform E n)%float ;;
            Returned (S n))
         features 0 ;;
  Returned tt.

(** [log_to_mlflow]: an [Exception] of the run is logged as a warning. *)
Definition log_to_mlflow (model_name : string) (result : Detector.DriftResult)
  : outcome unit :=
  Py.try_except (mlflow_log_run E model_name result) Py.is_Exception
                (fun _ => Returned tt).

(** [DriftDetectionService.detect_drift]; the service is returned as the
    call leaves it, also when the call raises. *)
Definition detect_drift (self : DriftDetectionService) (request : DriftDetectionRequest)
  : DriftDetectionService * outcome DriftDetectionResponse :=
  match DataFrame_of_records E (current_data request) with
  | Raised e => (self, Raised e)
  | Returned current_df =>
      match load_reference_data self (reference_data_id request) with
      | (self, Raised e) => (self, Raised e)
      | (self, Returned reference_df) =>
          let got :=
            match Py.get (model_name request) (detectors self) with
            | Some detector => Returned (self, detector)
            | None =>
                _ <- MultiModalDriftDetector_name E ;;
                let detector := mkDetector (detection_config request) in
                Returned
                  (mkService (Py.set (model_name request) detector (detectors self))
                             (reference_data_cache self),
                   detector)
            end in
          match got with
          | Raised e => (self, Raised e)
          | Returned (self, detector) =>
              (self,
               result <- Detector.detect_drift L detector reference_df current_df None ;;
               _ <- update_metrics (model_name request) result (columns current_df) ;;
               _ <- log_to_mlflow (model_name request) result ;;
               let recommendation := generate_recommendation result in
               Returned (mkResponse (Detector.drift_detected result)
                                    (Detector.drift_score result)
                                    (Detector.drift_type result)
                                    (Detector.features_affected result)
                                    (Detector.confidence result)
                                    recommendation))
          end
      end
  end.

End WithEnv.

End Service.

(* ===================================================================== *)
(** ** A library to run the detectors on                                   *)
(* ===================================================================== *)

(** The statements below hold for every [Lib]; to run the code on concrete
    frames one library is needed.  In this one numpy's histogram routines
    are written out, the logarithm is a series accurate to the last digits
    of a float, sums are taken from left to right, and the routines of scipy
    and scikit-learn, which fit models, answer from a script. *)
Module Numpy.

Local Open Scope float_scope.

(** The numbers of a column. *)
Definition numbers (s : Series) : list float :=
  flat_map (fun c => match c with Num x => [x] | _ => [] end) (s_values s).

Definition amin (x : float) (xs : list float) : float :=
  fold_left (fun m y => if y <? m then y else m) xs x.

Definition amax (x : float) (xs : list float) : float :=
  fold_left (fun m y => if m <? y then y else m) xs x.

(** [np.linspace(start, stop, num=div+1)] *)
Definition linspace (start stop : float) (div : nat) : list float :=
  let step := (stop - start) / Py.float_of_nat div in
  map (fun i => Py.float_of_nat i * step + start) (seq 0 div) ++ [stop].

(** [np.histogram_bin_edges(a, bins=10)] *)
Definition histogram_bin_edges (s : Series) : outcome (list float) :=
  let '(first_edge, last_edge) :=
    match numbers s with
    | [] => (0, 1)
    | x :: xs => (amin x xs, amax x xs)
    end in
  if negb (PrimFloat.is_finite first_edge && PrimFloat.is_finite last_edge) then
    Raised (Exn ValueError "autodetected range is not finite")
  else
    let '(first_edge, last_edge) :=
      if first_edge =? last_edge then (first_edge - 0.5, last_edge + 0.5)
      else (first_edge, last_edge) in
    Returned (linspace first_edge last_edge 10).

Fixpoint diff (xs : list nat) : list nat :=
  match xs with
  | x :: (y :: _) as xs' => (y - x)%nat :: diff xs'
  | _ => []
  end.

Fixpoint increasing (xs : list float) : bool :=
  match xs with
  | x :: (y :: _) as xs' => negb (y <? x) && increasing xs'
  | _ => true
  end.

(** [np.histogram(a, bins=edges)[0]]: every bin is closed on the left and
    open on the right, the last one is closed on both sides. *)
Definition histogram (s : Series) (edges : list float) : outcome (list float) :=
  if negb (increasing edges) then
    Raised (Exn ValueError "bins must increase monotonically")
  else
    let a := numbers s in
    let below e := List.length (filter (fun x => x <? e) a) in
    let upto e := List.length (filter (fun x => x <=? e) a) in
    let cum :=
      map below (removelast edges)
          ++ match edges with [] => [] | _ => [upto (last edges 0)] end in
    Returned (map Py.float_of_nat (diff cum)).

(** The natural logarithm: [x = m * 2^e] with [m] in [[0.75, 1.5)], and
    [ln m = 2 atanh ((m - 1) / (m + 1))] by its power series. *)
Definition ln2 : float := 0.6931471805599453.

Fixpoint atanh_series (t2 : float) (k : nat) (n : float) : float :=
  match k with
  | O => 0
  | S k' => 1 / n + t2 * atanh_series t2 k' (n + 2)
  end.

Definition float_of_Z (z : Z) : float :=
  match z with
  | Z0 => 0
  | Zpos _ => PrimFloat.of_uint63 (Uint63.of_Z z)
  | Zneg _ => - PrimFloat.of_uint63 (Uint63.of_Z (- z))
  end.

Definition log (x : float) : float :=
  if PrimFloat.is_nan x then nan
  else if x <? 0 then nan
  else if x =? 0 then neg_infinity
  else if PrimFloat.is_infinity x then infinity
  else
    let (m, e) := FloatOps.Z.frexp x in
    let (m, e) := if m <? 0.75 then (2 * m, (e - 1)%Z) else (m, e) in
    let t := (m - 1) / (m + 1) in
    float_of_Z e * ln2 + 2 * t * atanh_series (t * t) 24 1.

Definition sum (xs : list float) : float := fold_left PrimFloat.add xs 0.

Definition mean (xs : list float) : float := sum xs / Py.float_of_nat (List.length xs).

(** What the model-fitting routines answer in one run. *)
Record Script : Type := mkScript {
  ks : Series -> Series -> outcome (float * float);
  kernels : DataFrame -> DataFrame -> outcome (list (list float));
  forest : DataFrame -> outcome (DataFrame -> outcome (list Z));
  envelope : DataFrame -> outcome (DataFrame -> outcome (list Z));
  auc : DataFrame -> list float -> outcome (list float)
}.

(** [df.sample(n, random_state=42)] is taken to leave the rows in place and
    [pd.concat] of two frames with the same columns to append the columns'
    values. *)
Definition concat_frames (a b : DataFrame) : outcome DataFrame :=
  Returned
    (mkFrame (nrows a + nrows b)
       (map (fun kv =>
               (fst kv,
                mkSeries (s_dtype (snd kv))
                  (s_values (snd kv)
                   ++ match Py.get (fst kv) (cols b) with
                      | Some s => s_values s
                      | None => repeat Missing (nrows b)
                      end)))
            (cols a))).

Definition lib (sc : Script) : Lib :=
  mkLib (ks sc) histogram_bin_edges histogram log sum mean
        (Returned tt) (fun df _ => Returned df) (kernels sc)
        (forest sc) (envelope sc)
        (Returned tt) concat_frames (auc sc).

End Numpy.

(* ===================================================================== *)
(** ** Sample runs                                                         *)
(* ===================================================================== *)

Module Sample.

Import Detector.

Local Open Scope float_scope.

(** One column [x] of four rows: the reference holds 0 three times and 10
    once, the current frame 10 four times. *)
Definition reference : DataFrame :=
  mkFrame 4 [("x", mkSeries float64 [Num 0; Num 0; Num 0; Num 10])].

Definition current : DataFrame :=
  mkFrame 4 [("x", mkSeries float64 [Num 10; Num 10; Num 10; Num 10])].


(** The reference frame with a column of strings besides [x]. *)
Definition labelled : DataFrame :=
  mkFrame 4 [("x", mkSeries float64 [Num 0; Num 0; Num 0; Num 10]);
             ("city", mkSeries object_ [Str "Lagos"; Str "Accra"; Str "Lagos"; Str "Kano"])].

(** The Gram matrices of the RBF kernel on frames of one numeric column;
    [exp(-50)] is the kernel of 0 and 10.  On any other frame the routine
    raises, as the division by the length scale does on a string. *)
Definition rbf_0_10 : float := 1.9287498479639178e-22.

Definition gram (a b : DataFrame) : outcome (list (list float)) :=
  let k x y := if x =? y then 1 else rbf_0_10 in
  match cols a, cols b with
  | [(_, sa)], [(_, sb)] =>
      Returned (map (fun x => map (k x) (Numpy.numbers sb)) (Numpy.numbers sa))
  | _, _ => Raised (Exn TypeError "unsupported operand type(s) for /: 'str' and 'float'")
  end.

(** The script of the sample runs.  The KS test answers statistic 0.75 and
    p-value 0.2286; the forest marks every row of the current frame; the fit
    of the envelope raises, the three equal rows of the reference being a
    support without variance; the cross-validated AUC is 0.5 in every fold. *)
Definition script : Numpy.Script :=
  Numpy.mkScript
    (fun _ _ => Returned (0.75, 0.22857142857142856))
    gram
    (fun _ => Returned (fun df => Returned (repeat (-1)%Z (nrows df))))
    (fun _ =>
       Raised (Exn ValueError
                   "The covariance matrix of the support data is equal to 0, try to increase support_fraction"))
    (fun _ _ => Returned [0.5; 0.5; 0.5; 0.5; 0.5]).

Definition lib : Lib := Numpy.lib script.

Definition detector : MultiModalDriftDetector := mkDetector [].

(** The run on the two frames, without a target column. *)
Definition run : outcome DriftResult :=
  detect_drift lib detector reference current None.

(** What the detectors return on the two frames: the KS test and the
    errored covariance method report no drift; PSI (35.1), MMD and the
    forest report drift. *)
Definition results : Results :=
  [ ("ks_test",
     mkResult (Some false) (Some 0.75) (Some [("x", 0.22857142857142856)]) None
              (Some "ks_test") None);
    ("psi",
     mkResult (Some true) (Some 35.085616077687433) None
              (Some [("x", 35.085616077687433)]) (Some "psi") None);
    ("mmd", plain_result "mmd" true 1.125);
    ("isolation_forest", plain_result "isolation_forest" true 1);
    ("covariance_drift",
     error_result "covariance_drift"
       "The covariance matrix of the support data is equal to 0, try to increase support_fraction") ].

(** The result of the run. *)
Definition result : DriftResult :=
  mkDriftResult true 10.329337799357621 "covariate_drift" ["x"] 1
                [("individual_results", results)].

(** A configuration that sets the weight of [psi] to 0. *)
Definition psi_off : Py.dict float := [("psi", 0)].

(** The frame of a list of records: the keys of the first record are the
    columns. *)
Definition frame_of_records (records : list (Py.dict cell)) : outcome DataFrame :=
  let column_of k :=
    map (fun r => match Py.get k r with Some c => c | None => Missing end) records in
  let dtype_of cells :=
    if forallb (fun c => match c with Num _ => true | _ => false end) cells
    then float64 else object_ in
  Returned
    (mkFrame (List.length records)
       (map (fun k => (k, mkSeries (dtype_of (column_of k)) (column_of k)))
            (match records with [] => [] | r :: _ => map fst r end))).

(** Collaborators that accept every call. *)
Definition env : Service.Env :=
  Service.mkEnv frame_of_records (Returned tt) (Returned tt)
                (fun _ _ _ => Returned tt)
                (fun _ => 1) (fun _ _ => Returned tt).

(** A service that holds the reference frame under the id [ref-1], and a
    request with the four rows of the current frame. *)
Definition service : Service.DriftDetectionService :=
  Service.mkService [] [("ref-1", reference)].

Definition request : Service.DriftDetectionRequest :=
  Service.mkRequest "model-a"
    [ [("x", Num 10)]; [("x", Num 10)]; [("x", Num 10)]; [("x", Num 10)] ] "ref-1" [].

Definition response : Service.DriftDetectionResponse :=
  Service.mkResponse true 10.329337799357621 "covariate_drift" ["x"] 1
    "Retrain model with new data distribution. 1 features affected. | URGENT: Significant drift detected. Consider immediate model retraining and evaluation. | Focus on features: x".

(** Results in which every entry has the shape of the dictionary of an
    [except] branch.  (Of the detectors only [_mmd_drift], [_covariance_drift]
    and [_classifier_drift] build such a dictionary; the ensemble accepts
    any results.) *)
Definition all_failed : Results :=
  [ ("ks_test", error_result "ks_test" "Data passed to ks_2samp must not be empty");
    ("psi", error_result "psi" "autodetected range is not finite");
    ("mmd", error_result "mmd" "scikit-learn not available");
    ("isolation_forest", error_result "isolation_forest" "Found array with 0 sample(s)");
    ("covariance_drift",
     error_result "covariance_drift"
       "The covariance matrix of the support data is equal to 0, try to increase support_fraction") ].

End Sample.

(* ===================================================================== *)
(** ** The specification's wording                                         *)
(* ===================================================================== *)

(** Definitions that follow the words of the specification, to be compared
    with the code above. *)
Module Spec.

Import Detector.

Local Open Scope float_scope.

(** Section 4.8: the label of the two families. *)
Definition label (covariate_drift concept_drift : bool) : string :=
  match covariate_drift, concept_drift with
  | true, true => "covariate_and_concept_drift"
  | true, false => "covariate_drift"
  | false, true => "concept_drift"
  | false, false => "no_drift"
  end.

(** [result.metadata["individual_results"]] *)
Definition individual_results (d : DriftResult) : Results :=
  match Py.get "individual_results" (metadata d) with
  | Some results => results
  | None => []
  end.

(** Whether the method [m] is among the results and reports drift. *)
Definition fired (results : Results) (m : string) : bool :=
  match Py.get m results with
  | Some r => detected r
  | None => false
  end.

(** The results "without an error". *)
Definition without_errors (results : Results) : Results :=
  filter (fun kv => match mr_error (snd kv) with None => true | Some _ => false end)
         results.

(** Section 4.7, step 1: the sums run over the results without an error. *)
Definition errors_excluded (results : Results) : Prop :=
  drift_votes (tally results) = drift_votes (tally (without_errors results)) /\
  weighted_score (tally results) = weighted_score (tally (without_errors results)) /\
  total_weight (tally results) = total_weight (tally (without_errors results)).

(** A result with its [error] key removed. *)
Definition forget_error (r : MethodResult) : MethodResult :=
  mkResult (mr_drift_detected r) (mr_drift_score r) (mr_p_values r)
           (mr_psi_scores r) (mr_method r) None.

(** Every result is the dictionary of an [except] branch. *)
Definition all_errored (results : Results) : Prop :=
  Forall (fun kv => exists m msg, snd kv = error_result m msg) results.

(** "float in [0,1]" *)
Definition in_unit_interval (x : float) : bool := (0 <=? x) && (x <=? 1).

(** A result with its [drift_detected] flag replaced. *)
Definition with_flag (b : bool) (r : MethodResult) : MethodResult :=
  mkResult (Some b) (mr_drift_score r) (mr_p_values r) (mr_psi_scores r)
           (mr_method r) (mr_error r).

(** The results with the flag of method [m] replaced. *)
Definition set_flag (m : string) (b : bool) (results : Results) : Results :=
  map (fun kv => if String.eqb (fst kv) m then (fst kv, with_flag b (snd kv)) else kv)
      results.

(** Section 8, weight masking: with the weight of [m] set to 0 in the
    configuration, the flag of [m] does not change the ensemble's vote. *)
Definition flag_masked (cfg : Py.dict float) (m : string) (results : Results)
           (reference current : DataFrame) : Prop :=
  Py.get m cfg = Some 0 ->
  forall b b' d d',
    _ensemble_detection (mkDetector cfg) (set_flag m b results) reference current
      = Returned d ->
    _ensemble_detection (mkDetector cfg) (set_flag m b' results) reference current
      = Returned d' ->
    drift_detected d = drift_detected d'.

(** Section 7 (d): a metadata entry besides the individual results. *)
Definition has_failure_flag (d : DriftResult) : Prop :=
  exists k, k <> "individual_results" /\ Py.get k (metadata d) <> None.

(** The messages of [generate_recommendation]. *)
Definition no_action_message : string :=
  "No action needed. Model performance is stable.".

Definition retrain_message (n : nat) : string :=
  "Retrain model with new data distribution. " ++ Py.str_of_nat n
  ++ " features affected.".

Definition concept_message : string :=
  "Consider updating model architecture or features to adapt to concept drift.".

Definition urgent_message : string :=
  "URGENT: Significant drift detected. Consider immediate model retraining and evaluation.".

Definition focus_message (names : list string) : string :=
  "Focus on features: " ++ Py.join ", " (firstn 5 names).

(** The parts that do not depend on the drift type: the urgency message
    when the score is above 0.8, then up to five feature names. *)
Definition common_parts (d : DriftResult) : list string :=
  (if Py.gt (drift_score d) 0.8 then [urgent_message] else [])
    ++ match features_affected d with
       | [] => []
       | _ :: _ => [focus_message (features_affected d)]
       end.

(** Section 4.9: the urgency flag comes first. *)
Definition urgency_first (recommendation : string) : bool :=
  String.prefix "URGENT" recommendation.

(** A library with other classifier routines. *)
Definition with_classifier (L : Lib) (imp : outcome unit)
           (cat : DataFrame -> DataFrame -> outcome DataFrame)
           (cv : DataFrame -> list float -> outcome (list float)) : Lib :=
  mkLib (ks_2samp L) (histogram_bin_edges L) (histogram L) (np_log L) (np_sum L)
        (np_mean L) (import_kernels L) (df_sample L) (pairwise_kernels L)
        (IsolationForest_fit L) (EllipticEnvelope_fit L) imp cat cv.

(** Every dictionary a detector returns has the keys [drift_detected] and
    [drift_score]. *)
Definition complete (r : MethodResult) : Prop :=
  exists b s, mr_drift_detected r = Some b /\ mr_drift_score r = Some s.

(** The five results that are always there, in the order of insertion. *)
Definition five (ks psi mmd iforest cov : MethodResult) : Results :=
  [ ("ks_test", ks); ("psi", psi); ("mmd", mmd);
    ("isolation_forest", iforest); ("covariance_drift", cov) ].

End Spec.

(* ===================================================================== *)
(** ** The rest of the two modules                                         *)
(* ===================================================================== *)

(** The module-level code of [drift_service.py], and a few notions used to
    state what the detectors and the service do. *)
Module More.

Import Detector.

Local Open Scope float_scope.

(** The names of the columns, among some columns of a frame, that pass the
    dtype test of the per-column detectors, in order. *)
Definition numeric_names (entries : Py.dict Series) : list string :=
  map fst (filter (fun kv => is_numeric (s_dtype (snd kv))) entries).

(** The numeric columns of a frame. *)
Definition numeric_columns (df : DataFrame) : list string :=
  numeric_names (cols df).

(** [drift_service = DriftDetectionService()]: [__init__] starts with two
    empty dictionaries. *)
Definition drift_service : Service.DriftDetectionService :=
  Service.mkService [] [].

(** [detect_drift_endpoint]: the handler awaits the method of the global
    instance, whose state the next request finds. *)
Definition detect_drift_endpoint (L : Lib) (E : Service.Env)
           (service : Service.DriftDetectionService)
           (request : Service.DriftDetectionRequest)
  : Service.DriftDetectionService * outcome Service.DriftDetectionResponse :=
  Service.detect_drift L E service request.

(** The requests of a process, one after the other: the state of the
    instance after the last one, and the outcome of each. *)
Fixpoint serve (L : Lib) (E : Service.Env) (service : Service.DriftDetectionService)
         (requests : list Service.DriftDetectionRequest)
  : Service.DriftDetectionService * list (outcome Service.DriftDetectionResponse) :=
  match requests with
  | [] => (service, [])
  | request :: rest =>
      let (service', out) := detect_drift_endpoint L E service request in
      let (final, outs) := serve L E service' rest in
      (final, out :: outs)
  end.

(** Every frame of the cache is the placeholder frame of
    [load_reference_data]. *)
Definition placeholders_only (service : Service.DriftDetectionService) : Prop :=
  forall id df,
    Py.get id (Service.reference_data_cache service) = Some df -> df = mkFrame 0 [].

(** Collaborators with another MLflow run log. *)
Definition with_mlflow (E : Service.Env)
           (log : string -> DriftResult -> outcome unit) : Service.Env :=
  Service.mkEnv (Service.DataFrame_of_records E)
                (Service.MultiModalDriftDetector_name E) (Service.MlflowClient E)
                (Service.gauge_set E) (Service.random_uniform E) log.

(** A frame whose only column holds strings. *)
Definition strings_only : DataFrame :=
  mkFrame 2 [("city", mkSeries object_ [Str "Lagos"; Str "Accra"])].

(** A frame with a label column besides [x]. *)
Definition with_target : DataFrame :=
  mkFrame 4 [("x", mkSeries float64 [Num 0; Num 0; Num 0; Num 10]);
             ("label", mkSeries int64 [Num 0; Num 1; Num 0; Num 1])].

(** A run log that fails. *)
Definition failing_log (name : string) (result : DriftResult) : outcome unit :=
  Raised (Exn OtherException "MLflow is not reachable").

(** Gauges that fail. *)
Definition failing_gauges : Service.Env :=
  Service.mkEnv Sample.frame_of_records (Returned tt) (Returned tt)
                (fun _ _ _ => Raised (Exn ValueError "Incorrect label names"))
                (fun _ => 1) (fun _ _ => Returned tt).

(** A request for a reference that is not in the cache. *)
Definition cold_request : Service.DriftDetectionRequest :=
  Service.mkRequest "model-b" [ [("x", Num 10)]; [("x", Num 10)] ] "ref-2" [].




(** Results in which the KS entry has no [drift_detected] key. *)
Definition flagless : Results :=
  [ ("ks_test", mkResult None (Some 0.5) None None (Some "ks_test") None);
    ("psi", plain_result "psi" false 0) ].

End More.

Unset Implicit Arguments.

(* ===================================================================== *)
(** ** Generic facts: the error monad, loops, dictionaries                 *)
(* ===================================================================== *)

Section MonadFacts.

Context {A B : Type}.

Lemma bind_returned (m : outcome A) (k : A -> outcome B) (b : B) :
  Py.bind m k = Returned b ->
  exists a, m = Returned a /\ k a = Returned b.
Proof.
  destruct m as [a | e]; simpl; intros H.
  - exists a; split; [reflexivity | exact H].
  - discriminate H.
Qed.

Lemma bind_raised (m : outcome A) (k : A -> outcome B) (e : Py.exn) :
  m = Raised e -> Py.bind m k = Raised e.
Proof. intros ->; reflexivity. Qed.

Lemma bind_step (m : outcome A) (k : A -> outcome B) (a : A) :
  m = Returned a -> Py.bind m k = k a.
Proof. intros ->; reflexivity. Qed.

(** A [try] whose [except] clause returns never raises an exception of the
    classes it catches. *)
Lemma try_except_caught (body : outcome A) (catches : Py.exn_class -> bool)
      (handler : Py.exn -> A) (e : Py.exn) :
  Py.try_except body catches (fun x => Returned (handler x)) = Raised e ->
  body = Raised e /\ catches (Py.exn_cls e) = false.
Proof.
  destruct body as [a | e']; simpl; [discriminate |].
  destruct (catches (Py.exn_cls e')) eqn:Hc; [discriminate |].
  intros H; injection H as <-; split; [reflexivity | exact Hc].
Qed.

Lemma try_except_escapes (body : outcome A) (catches : Py.exn_class -> bool)
      (handler : Py.exn -> outcome A) (e : Py.exn) :
  body = Raised e -> catches (Py.exn_cls e) = false ->
  Py.try_except body catches handler = Raised e.
Proof. intros -> Hc; simpl; rewrite Hc; reflexivity. Qed.

End MonadFacts.

(** Splitting a hypothesis [x <- m ;; k = Returned b]. *)
Ltac bind_inv H :=
  let a := fresh "a" in
  let Ha := fresh "Ha" in
  apply bind_returned in H; destruct H as (a & Ha & H).

Section LoopFacts.

Context {A S : Type}.



End LoopFacts.

Section DictFacts.

Context {V : Type}.

Lemma get_some_in_keys (k : string) (d : Py.dict V) (v : V) :
  Py.get k d = Some v -> In k (map fst d).
Proof.
  induction d as [| [k' v'] d IH]; simpl; [discriminate |].
  destruct (String.eqb k k') eqn:Hk.
  - apply String.eqb_eq in Hk; subst; intros _; left; reflexivity.
  - intros H; right; apply IH; exact H.
Qed.

Lemma subscript_some (k : string) (d : Py.dict V) (v : V) :
  Py.get k d = Some v -> Py.subscript d k = Returned v.
Proof. unfold Py.subscript; intros ->; reflexivity. Qed.


End DictFacts.

(* ===================================================================== *)
(** ** The detectors and the ensemble                                      *)
(* ===================================================================== *)

Module DetectorFacts.

Import Detector.
Import Spec.

(** *** What a detector returns *)

Lemma plain_complete (m : string) (b : bool) (s : float) : complete (plain_result m b s).
Proof. exists b, s; split; reflexivity. Qed.

Lemma error_complete (m msg : string) : complete (error_result m msg).
Proof. exists false, 0%float; split; reflexivity. Qed.

#[local] Hint Resolve plain_complete error_complete : core.

Section Shapes.

Variable L : Lib.
Variables reference current : DataFrame.

Lemma ks_complete (r : MethodResult) :
  _ks_test_drift L reference current = Returned r -> complete r.
Proof.
  unfold _ks_test_drift; intros H; bind_inv H.
  destruct a as [scores ps]; injection H as <-.
  eexists _, _; split; reflexivity.
Qed.

Lemma psi_complete (r : MethodResult) :
  _psi_drift L reference current = Returned r -> complete r.
Proof.
  unfold _psi_drift; intros H; bind_inv H.
  injection H as <-; eexists _, _; split; reflexivity.
Qed.

Lemma mmd_complete (r : MethodResult) :
  _mmd_drift L reference current = Returned r -> complete r.
Proof.
  unfold _mmd_drift, Py.try_except; intros H.
  match type of H with match ?body with _ => _ end = _ => destruct body as [x | e] eqn:Hb end.
  - injection H as <-.
    repeat (bind_inv Hb). injection Hb as <-. auto.
  - destruct (Py.is_ImportError (Py.exn_cls e)); [| discriminate].
    injection H as <-; auto.
Qed.

Lemma isolation_forest_complete (r : MethodResult) :
  _isolation_forest_drift L reference current = Returned r -> complete r.
Proof.
  unfold _isolation_forest_drift; intros H.
  repeat (bind_inv H). injection H as <-; auto.
Qed.

Lemma covariance_complete (r : MethodResult) :
  _covariance_drift L reference current = Returned r -> complete r.
Proof.
  unfold _covariance_drift, Py.try_except; intros H.
  match type of H with match ?body with _ => _ end = _ => destruct body as [x | e] eqn:Hb end.
  - injection H as <-.
    repeat (bind_inv Hb). injection Hb as <-. auto.
  - destruct (Py.is_Exception (Py.exn_cls e)); [| discriminate].
    injection H as <-; auto.
Qed.

Lemma classifier_complete (target : string) (r : MethodResult) :
  _classifier_drift L reference current target = Returned r -> complete r.
Proof.
  unfold _classifier_drift, Py.try_except; intros H.
  match type of H with match ?body with _ => _ end = _ => destruct body as [x | e] eqn:Hb end.
  - injection H as <-.
    repeat (bind_inv Hb). injection Hb as <-. auto.
  - destruct (Py.is_Exception (Py.exn_cls e)); [| discriminate].
    injection H as <-; auto.
Qed.

End Shapes.

(** *** The results [detect_drift] hands to the ensemble *)

Lemma detect_drift_inv (L : Lib) (self : MultiModalDriftDetector)
      (reference current : DataFrame) (target_column : option string) (d : DriftResult) :
  detect_drift L self reference current target_column = Returned d ->
  exists ks psi mmd iforest cov extra,
    _ks_test_drift L reference current = Returned ks /\
    _psi_drift L reference current = Returned psi /\
    _mmd_drift L reference current = Returned mmd /\
    _isolation_forest_drift L reference current = Returned iforest /\
    _covariance_drift L reference current = Returned cov /\
    (truthy target_column = false -> extra = []) /\
    (truthy target_column = true ->
     exists target clf,
       target_column = Some target /\
       _classifier_drift L reference current target = Returned clf /\
       extra = [("classifier_drift", clf)]) /\
    _ensemble_detection self (five ks psi mmd iforest cov ++ extra) reference current
      = Returned d.
Proof.
  unfold detect_drift; intros H.
  bind_inv H; rename a into ks, Ha into Hks.
  bind_inv H; rename a into psi, Ha into Hpsi.
  bind_inv H; rename a into mmd, Ha into Hmmd.
  bind_inv H; rename a into iforest, Ha into Hif.
  bind_inv H; rename a into cov, Ha into Hcov.
  bind_inv H; rename a into results, Ha into Hres.
  exists ks, psi, mmd, iforest, cov.
  destruct target_column as [target |].
  - destruct (truthy (Some target)) eqn:Ht.
    + bind_inv Hres; rename a into clf. injection Hres as <-.
      exists [("classifier_drift", clf)].
      repeat split; auto; try discriminate.
      intros _; exists target, clf; repeat split; auto.
    + injection Hres as <-. exists [].
      rewrite app_nil_r. repeat split; auto; discriminate.
  - injection Hres as <-. exists [].
    rewrite app_nil_r. repeat split; auto; discriminate.
Qed.

(** *** The drift type *)

Lemma any_detected_fired (results : Results) (methods : list string) :
  (forall m r, In m methods -> Py.get m results = Some r -> complete r) ->
  any_detected results methods = Returned (existsb (fired results) methods).
Proof.
  induction methods as [| m ms IH]; intros Hc; simpl; [reflexivity |].
  unfold fired at 1.
  destruct (Py.get m results) as [r |] eqn:Hm.
  - destruct (Hc m r (or_introl eq_refl) Hm) as (b & s & Hb & _).
    unfold detected; rewrite Hb.
    destruct b; simpl; [reflexivity |].
    apply IH; intros m' r' Hin; apply Hc; right; exact Hin.
  - simpl. apply IH; intros m' r' Hin; apply Hc; right; exact Hin.
Qed.

(** On results that all carry their flag, [_determine_drift_type] is the
    table of the two families. *)
Lemma determine_drift_type_label (results : Results) (reference current : DataFrame) :
  (forall m r, In m ["ks_test"; "psi"; "mmd"] -> Py.get m results = Some r -> complete r) ->
  _determine_drift_type results reference current
  = Returned (label (fired results "ks_test" || fired results "psi" || fired results "mmd")
                    (fired results "classifier_drift")).
Proof.
  intros Hc. unfold _determine_drift_type.
  rewrite (any_detected_fired _ _ Hc). simpl.
  rewrite orb_false_r, orb_assoc.
  fold (fired results "classifier_drift").
  destruct (fired results "ks_test" || fired results "psi" || fired results "mmd"),
    (fired results "classifier_drift"); reflexivity.
Qed.

Lemma detect_drift_ignores_classifier (L : Lib) (self : MultiModalDriftDetector)
      (reference current : DataFrame) (target_column : option string)
      (imp : outcome unit) (cat : DataFrame -> DataFrame -> outcome DataFrame)
      (cv : DataFrame -> list float -> outcome (list float)) :
  truthy target_column = false ->
  detect_drift (with_classifier L imp cat cv) self reference current target_column
  = detect_drift L self reference current target_column.
Proof.
  intros Ht. unfold detect_drift.
  destruct target_column as [t |]; [rewrite Ht |]; reflexivity.
Qed.

(** The drift type of a run, over the flags of its individual results. *)
Lemma drift_type_of_run (L : Lib) (self : MultiModalDriftDetector)
      (reference current : DataFrame) (target_column : option string)
      (d : DriftResult) :
  detect_drift L self reference current target_column = Returned d ->
  exists results ks psi mmd,
    metadata d = [("individual_results", results)] /\
    _ks_test_drift L reference current = Returned ks /\
    _psi_drift L reference current = Returned psi /\
    _mmd_drift L reference current = Returned mmd /\
    drift_type d
    = label (detected ks || detected psi || detected mmd)
            (fired results "classifier_drift") /\
    (truthy target_column = false -> Py.get "classifier_drift" results = None) /\
    (truthy target_column = true ->
     exists target clf,
       target_column = Some target /\
       _classifier_drift L reference current target = Returned clf /\
       Py.get "classifier_drift" results = Some clf).
Proof.
  intros H.
  destruct (detect_drift_inv _ _ _ _ _ _ H)
    as (ks & psi & mmd & iforest & cov & extra
        & Hks & Hpsi & Hmmd & Hif & Hcov & Hno & Hyes & He).
  pose proof (ks_complete _ _ _ _ Hks) as Cks.
  pose proof (psi_complete _ _ _ _ Hpsi) as Cpsi.
  pose proof (mmd_complete _ _ _ _ Hmmd) as Cmmd.
  assert (Hfam : fired (five ks psi mmd iforest cov ++ extra) "ks_test"
                 || fired (five ks psi mmd iforest cov ++ extra) "psi"
                 || fired (five ks psi mmd iforest cov ++ extra) "mmd"
                 = detected ks || detected psi || detected mmd) by reflexivity.
  unfold _ensemble_detection in He.
  rewrite determine_drift_type_label in He.
  2:{ intros m r [<- | [<- | [<- | []]]]; simpl; intros Hr;
      injection Hr as <-; assumption. }
  rewrite Hfam in He.
  cbn [Py.bind] in He. injection He as <-.
  exists (five ks psi mmd iforest cov ++ extra), ks, psi, mmd.
  cbn [metadata drift_type].
  split; [reflexivity |].
  split; [assumption |]. split; [assumption |]. split; [assumption |].
  split; [reflexivity |].
  split.
  - intros Ht. rewrite (Hno Ht). reflexivity.
  - intros Ht. destruct (Hyes Ht) as (target & clf & -> & Hclf & ->).
    exists target, clf.
    split; [reflexivity |]. split; [assumption | reflexivity].
Qed.

(** C5.  The drift type of a returned result is the table of section 4.8
    over the flags of the individual results: the covariate family is
    [ks_test], [psi], [mmd]; the concept family is [classifier_drift], which
    is among the results exactly when a target column was supplied.  Without
    a target column the classifier routines are not used at all. *)
Theorem drift_type_by_family (L : Lib) (self : MultiModalDriftDetector)
        (reference current : DataFrame) (target_column : option string)
        (d : DriftResult) :
  detect_drift L self reference current target_column = Returned d ->
  exists results ks psi mmd,
    metadata d = [("individual_results", results)] /\
    _ks_test_drift L reference current = Returned ks /\
    _psi_drift L reference current = Returned psi /\
    _mmd_drift L reference current = Returned mmd /\
    drift_type d
    = label (detected ks || detected psi || detected mmd)
            (fired results "classifier_drift") /\
    (truthy target_column = false ->
     Py.get "classifier_drift" results = None /\
     drift_type d
     = (if detected ks || detected psi || detected mmd
        then "covariate_drift" else "no_drift") /\
     forall imp cat cv,
       detect_drift (with_classifier L imp cat cv) self reference current target_column
       = Returned d) /\
    (truthy target_column = true ->
     exists target clf,
       target_column = Some target /\
       _classifier_drift L reference current target = Returned clf /\
       Py.get "classifier_drift" results = Some clf /\
       drift_type d
       = label (detected ks || detected psi || detected mmd) (detected clf)).
Proof.
  intros H.
  destruct (drift_type_of_run _ _ _ _ _ _ H)
    as (results & ks & psi & mmd & Hm & Hks & Hpsi & Hmmd & Ht & Hno & Hyes).
  exists results, ks, psi, mmd.
  repeat (split; [assumption |]).
  split.
  - intros Hf. pose proof (Hno Hf) as Hnone.
    split; [exact Hnone |]. split.
    + rewrite Ht. unfold fired. rewrite Hnone.
      destruct (detected ks || detected psi || detected mmd); reflexivity.
    + intros imp cat cv.
      rewrite detect_drift_ignores_classifier by assumption. exact H.
  - intros Hf. destruct (Hyes Hf) as (target & clf & Htgt & Hclf & Hget).
    exists target, clf.
    repeat (split; [assumption |]).
    rewrite Ht. unfold fired. rewrite Hget. reflexivity.
Qed.

Lemma drift_type_by_family_witness :
  detect_drift Sample.lib Sample.detector Sample.reference Sample.current
               (Some "x"%string)
  = Returned
      (mkDriftResult true 9.3464040194218594 "covariate_drift" ["x"%string] 1
         [("individual_results"%string,
           Sample.results
             ++ [("classifier_drift"%string,
                  plain_result "classifier_drift" false 0.5)])]) /\
  exists clf,
    _classifier_drift Sample.lib Sample.reference Sample.current "x"
    = Returned clf /\
    Py.get "classifier_drift"
           (Sample.results
              ++ [("classifier_drift"%string,
                   plain_result "classifier_drift" false 0.5)])
    = Some clf.
Proof.
  assert (H : detect_drift Sample.lib Sample.detector Sample.reference Sample.current
                           (Some "x"%string)
              = Returned
                  (mkDriftResult true 9.3464040194218594 "covariate_drift"
                     ["x"%string] 1
                     [("individual_results"%string,
                       Sample.results
                         ++ [("classifier_drift"%string,
                              plain_result "classifier_drift" false 0.5)])]))
    by (vm_compute; reflexivity).
  split; [exact H |].
  destruct (drift_type_by_family _ _ _ _ _ _ H)
    as (results & ks & psi & mmd & Hm & _ & _ & _ & _ & _ & Hyes).
  destruct (Hyes eq_refl) as (target & clf & Ht & Hclf & Hget & _).
  injection Ht as <-. injection Hm as <-.
  exists clf. split; [exact Hclf | exact Hget].
Defined.

End DetectorFacts.

Module EnsembleFacts.

Import Detector.
Import Spec.

Local Open Scope float_scope.

(** *** Floats *)

(** Zero divided by a positive float is zero. *)
Lemma zero_div_pos (x : float) : (0 <? x) = true -> 0 / x = 0.
Proof.
  intros H. apply Prim2SF_inj.
  rewrite div_spec. rewrite ltb_spec in H.
  change (Prim2SF 0) with (S754_zero false) in *.
  unfold SF64div, SFdiv, SFltb, SFcompare in *.
  destruct (Prim2SF x) as [s | s | | s m e]; try discriminate H;
    destruct s; try discriminate H; reflexivity.
Qed.

(** [min(x, 1.0)] is never above 1. *)
Lemma min2_one_le (x : float) : Py.gt (Py.min2 x 1) 1 = false.
Proof.
  unfold Py.gt, Py.min2, Py.lt.
  destruct (1 <? x) eqn:E; [reflexivity | exact E].
Qed.

(** The order of two floats, the first of them positive and finite, read
    on their specification. *)
Lemma SFcompare_pos_antisym (x : spec_float) (m0 : positive) (e0 : Z) :
  SFltb (S754_finite false m0 e0) x = true ->
  SFleb x (S754_finite false m0 e0) = false.
Proof.
  unfold SFltb, SFleb, SFcompare.
  destruct x as [s | s | | s m e].
  - discriminate.
  - destruct s; [discriminate | reflexivity].
  - discriminate.
  - destruct s; [discriminate |].
    rewrite (Z.compare_antisym e0 e).
    destruct (e0 ?= e)%Z; cbn [CompOpp].
    + change (PosDef.Pos.compare_cont Eq m0 m) with (Pos.compare m0 m).
      change (PosDef.Pos.compare_cont Eq m m0) with (Pos.compare m m0).
      rewrite (Pos.compare_antisym m0 m).
      destruct (m0 ?= m)%positive; cbn [CompOpp]; try discriminate; reflexivity.
    + reflexivity.
    + discriminate.
Qed.

Lemma one_spec : Prim2SF 1 = S754_finite false 4503599627370496 (-52).
Proof. vm_compute. reflexivity. Qed.

(** A float that is at most 1 is not above 1. *)
Lemma le_one_not_gt (x : float) : (x <=? 1) = true -> (1 <? x) = false.
Proof.
  rewrite leb_spec, ltb_spec, one_spec. intros H.
  destruct (SFltb (S754_finite false 4503599627370496 (-52)) (Prim2SF x)) eqn:E;
    [| reflexivity].
  rewrite (SFcompare_pos_antisym _ _ _ E) in H. discriminate.
Qed.

(** [min(x, 1.0)] is [x] when [x] is at most 1. *)
Lemma min2_one_id (x : float) : (x <=? 1) = true -> Py.min2 x 1 = x.
Proof.
  intros H. unfold Py.min2, Py.lt. rewrite (le_one_not_gt _ H). reflexivity.
Qed.

(** *** The weights *)

Lemma weight_cases (m : string) :
  weight_of m = 0.2 \/ weight_of m = 0.25 \/ weight_of m = 0.15 \/ weight_of m = 0.1.
Proof.
  unfold weight_of, weights; simpl.
  repeat match goal with
         | |- context [String.eqb ?a ?b] => destruct (String.eqb a b)
         end; auto.
Qed.

Lemma weight_unknown (m : string) :
  In m (map fst weights) \/ weight_of m = 0.1.
Proof.
  unfold weight_of.
  destruct (Py.get m weights) as [w |] eqn:Hm.
  - left. exact (get_some_in_keys _ _ _ Hm).
  - right. reflexivity.
Qed.

Lemma zero_times_weight (m : string) : 0 * weight_of m = 0.
Proof.
  destruct (weight_cases m) as [-> | [-> | [-> | ->]]]; reflexivity.
Qed.

(** *** The tally *)

Lemma tally_app (rs rs' : Results) :
  tally (rs ++ rs') = fold_left tally_step rs' (tally rs).
Proof. unfold tally; apply fold_left_app. Qed.

(** The loop does not read the [error] key. *)
Lemma tally_step_forget_error (t : Tally) (m : string) (r : MethodResult) :
  tally_step t (m, r) = tally_step t (m, forget_error r).
Proof. reflexivity. Qed.

Lemma tally_forget_error (results : Results) :
  tally results = tally (map (fun kv => (fst kv, forget_error (snd kv))) results).
Proof.
  unfold tally. generalize tally0.
  induction results as [| [m r] rs IH]; intros t; simpl; [reflexivity |].
  rewrite <- IH. reflexivity.
Qed.

(** What the dictionary of an [except] branch adds: its weight to
    [total_weight], zero to [weighted_score], nothing to [drift_votes]. *)
Lemma tally_step_error (t : Tally) (m m' msg : string) :
  tally_step t (m, error_result m' msg)
  = mkTally (total_weight t + weight_of m) (weighted_score t + 0)
            (drift_votes t) (features t).
Proof.
  unfold tally_step, error_result, detected; simpl.
  rewrite zero_times_weight. reflexivity.
Qed.

Lemma tally_all_errored (results : Results) (t : Tally) :
  all_errored results ->
  weighted_score t = 0 -> drift_votes t = 0 -> features t = [] ->
  let t' := fold_left tally_step results t in
  weighted_score t' = 0 /\ drift_votes t' = 0 /\ features t' = [].
Proof.
  intros Hall; revert t.
  induction Hall as [| [m r] rs (m' & msg & Hr) _ IH]; intros t Hw Hv Hf.
  - simpl; auto.
  - simpl in Hr; subst r.
    change (fold_left tally_step ((m, error_result m' msg) :: rs) t)
      with (fold_left tally_step rs (tally_step t (m, error_result m' msg))).
    rewrite tally_step_error.
    apply IH; simpl; try assumption.
    rewrite Hw; reflexivity.
Qed.

Lemma ensemble_detection_inv (self : MultiModalDriftDetector) (results : Results)
      (reference current : DataFrame) (d : DriftResult) :
  _ensemble_detection self results reference current = Returned d ->
  let t := tally results in
  drift_detected d = Py.gt (drift_votes t) 0.5 /\
  drift_score d
  = (if Py.gt (total_weight t) 0 then weighted_score t / total_weight t else 0) /\
  features_affected d = features t /\
  confidence d = Py.min2 (drift_score d) 1 /\
  metadata d = [("individual_results", results)] /\
  _determine_drift_type results reference current = Returned (drift_type d).
Proof.
  unfold _ensemble_detection; intros H. bind_inv H. injection H as <-.
  simpl. repeat split; auto.
Qed.

(** *** The sample run *)

Lemma sample_run : Sample.run = Returned Sample.result.
Proof. vm_compute. reflexivity. Qed.

Lemma sample_ensemble :
  _ensemble_detection Sample.detector Sample.results Sample.reference Sample.current
  = Returned Sample.result.
Proof. vm_compute. reflexivity. Qed.

(** *** C1: the results that carry an error *)

(** Two floats that differ under a test differ. *)
Lemma float_neq (x y : float) (test : float -> bool) :
  test x <> test y -> x <> y.
Proof. intros H E; apply H; rewrite E; reflexivity. Qed.

(** C1, as stated, fails on the sample run: the covariance method carries
    an error, and its weight 0.1 is in [total_weight] (0.9 against 0.8
    without it). *)
Lemma errored_method_weighs_in :
  Sample.run = Returned Sample.result /\
  (exists msg,
      option_map mr_error (Py.get "covariance_drift" Sample.results)
      = Some (Some msg)) /\
  ~ errors_excluded Sample.results.
Proof.
  split; [apply sample_run |].
  split; [eexists; reflexivity |].
  intros (_ & _ & H). revert H.
  apply (float_neq _ _ (fun x => x <? 0.85)).
  vm_compute. discriminate.
Qed.

(** C1, amended.  The loop of the ensemble does not read the [error] key:
    the tally of the results is the tally of the results with their errors
    removed from the dictionaries, and a dictionary of an [except] branch
    found after the results [before] adds its weight to [total_weight], zero
    to [weighted_score] and nothing to [drift_votes].  The decision is
    [drift_votes > 0.5] and the score [weighted_score / total_weight] when
    [total_weight > 0], else 0. *)
Theorem ensemble_counts_errored_results
        (self : MultiModalDriftDetector) (results : Results)
        (reference current : DataFrame) (d : DriftResult) :
  _ensemble_detection self results reference current = Returned d ->
  drift_detected d = Py.gt (drift_votes (tally results)) 0.5 /\
  drift_score d
  = (if Py.gt (total_weight (tally results)) 0
     then weighted_score (tally results) / total_weight (tally results)
     else 0) /\
  tally results
  = tally (map (fun kv => (fst kv, forget_error (snd kv))) results) /\
  forall before m m' msg after,
    results = before ++ (m, error_result m' msg) :: after ->
    tally (before ++ [(m, error_result m' msg)])
    = mkTally (total_weight (tally before) + weight_of m)
              (weighted_score (tally before) + 0)
              (drift_votes (tally before))
              (features (tally before)).
Proof.
  intros H.
  destruct (ensemble_detection_inv _ _ _ _ _ H) as (Hd & Hs & _).
  split; [exact Hd |]. split; [exact Hs |].
  split; [apply tally_forget_error |].
  intros before m m' msg after _.
  rewrite tally_app. cbn [fold_left]. apply tally_step_error.
Qed.

Lemma ensemble_counts_errored_results_witness :
  _ensemble_detection Sample.detector Sample.results Sample.reference Sample.current
  = Returned Sample.result /\
  drift_detected Sample.result = Py.gt (drift_votes (tally Sample.results)) 0.5.
Proof.
  split; [vm_compute; reflexivity |].
  apply (ensemble_counts_errored_results
           Sample.detector Sample.results Sample.reference Sample.current
           Sample.result).
  vm_compute; reflexivity.
Defined.

(** *** C3: score and confidence *)

(** C3, as stated, fails on the sample run: the PSI of the column is 35.1
    and the drift score of the result is 10.3, which is not in [0,1]. *)
Lemma drift_score_above_one :
  Sample.run = Returned Sample.result /\
  in_unit_interval (drift_score Sample.result) = false.
Proof. split; [apply sample_run | vm_compute; reflexivity]. Qed.

(** C3, amended.  In every result [detect_drift] returns, the confidence is
    [min(drift_score, 1.0)]: it is never above 1, and it is the drift score
    whenever that is at most 1.  The drift score is the weighted mean of the
    scores of the individual results, whatever their size. *)
Theorem confidence_is_capped_score
        (L : Lib) (self : MultiModalDriftDetector) (reference current : DataFrame)
        (target_column : option string) (d : DriftResult) :
  detect_drift L self reference current target_column = Returned d ->
  confidence d = Py.min2 (drift_score d) 1 /\
  Py.gt (confidence d) 1 = false /\
  ((drift_score d <=? 1) = true -> confidence d = drift_score d) /\
  exists results,
    metadata d = [("individual_results"%string, results)] /\
    drift_score d
    = (if Py.gt (total_weight (tally results)) 0
       then weighted_score (tally results) / total_weight (tally results)
       else 0).
Proof.
  intros H.
  destruct (DetectorFacts.detect_drift_inv _ _ _ _ _ _ H)
    as (ks & psi & mmd & iforest & cov & extra & _ & _ & _ & _ & _ & _ & _ & He).
  destruct (ensemble_detection_inv _ _ _ _ _ He) as (_ & Hs & _ & Hc & Hm & _).
  split; [exact Hc |].
  split; [rewrite Hc; apply min2_one_le |].
  split; [intros Hle; rewrite Hc; apply min2_one_id; exact Hle |].
  eexists; split; [exact Hm | exact Hs].
Qed.

Lemma confidence_is_capped_score_witness :
  detect_drift Sample.lib Sample.detector Sample.reference Sample.current None
  = Returned Sample.result /\
  confidence Sample.result = Py.min2 (drift_score Sample.result) 1.
Proof.
  split; [vm_compute; reflexivity |].
  apply (confidence_is_capped_score
           Sample.lib Sample.detector Sample.reference Sample.current None
           Sample.result).
  vm_compute; reflexivity.
Defined.

(** *** C4: the weights *)

(** C4, as stated, fails: with the weight of [psi] set to 0 in the
    configuration, the flag of [psi] still decides the vote on the sample
    results (0.25 + 0.2 + 0.15 = 0.6 with it, 0.35 without). *)
Lemma configured_zero_weight_still_votes :
  ~ flag_masked Sample.psi_off "psi" Sample.results Sample.reference Sample.current.
Proof.
  intros H.
  specialize (H eq_refl true false _ _ eq_refl eq_refl).
  vm_compute in H. discriminate H.
Qed.

(** C4, amended.  The configuration of the detector is not read: detection
    and ensemble give the same outcome under every configuration.  The
    weights are always ks_test 0.20, psi 0.25, mmd 0.20, isolation_forest
    0.15, covariance_drift 0.10, classifier_drift 0.10, and 0.1 for every
    other method name. *)
Theorem weights_are_fixed :
  (forall L self self' reference current target_column,
      detect_drift L self reference current target_column
      = detect_drift L self' reference current target_column) /\
  (forall self self' results reference current,
      _ensemble_detection self results reference current
      = _ensemble_detection self' results reference current) /\
  weight_of "ks_test" = 0.2 /\
  weight_of "psi" = 0.25 /\
  weight_of "mmd" = 0.2 /\
  weight_of "isolation_forest" = 0.15 /\
  weight_of "covariance_drift" = 0.1 /\
  weight_of "classifier_drift" = 0.1 /\
  (forall m,
      In m ["ks_test"; "psi"; "mmd"; "isolation_forest"; "covariance_drift";
            "classifier_drift"]%string
      \/ weight_of m = 0.1).
Proof.
  repeat split; try reflexivity.
  exact weight_unknown.
Qed.

(** *** C8: every method failed *)

Lemma all_errored_get (results : Results) (m : string) (r : MethodResult) :
  all_errored results -> Py.get m results = Some r ->
  exists m' msg, r = error_result m' msg.
Proof.
  intros Hall; induction Hall as [| [k v] rs Hv _ IH]; simpl; [discriminate |].
  destruct (String.eqb m k).
  - intros E; injection E as <-. exact Hv.
  - exact IH.
Qed.

Lemma all_errored_not_fired (results : Results) (m : string) :
  all_errored results -> fired results m = false.
Proof.
  intros Hall. unfold fired.
  destruct (Py.get m results) as [r |] eqn:Hm; [| reflexivity].
  destruct (all_errored_get _ _ _ Hall Hm) as (m' & msg & ->). reflexivity.
Qed.

(** C8, as stated, fails: when all methods failed the result has score 0
    and no drift, but its metadata holds the individual results and nothing
    else. *)
Lemma no_total_failure_flag :
  exists d,
    _ensemble_detection Sample.detector Sample.all_failed
                        Sample.reference Sample.current = Returned d /\
    drift_score d = 0 /\ drift_detected d = false /\
    ~ has_failure_flag d.
Proof.
  eexists. split; [vm_compute; reflexivity |].
  split; [reflexivity |]. split; [reflexivity |].
  intros (k & Hk & Hget). simpl in Hget.
  destruct (String.eqb k "individual_results") eqn:E.
  - apply String.eqb_eq in E. contradiction.
  - apply Hget; reflexivity.
Qed.

(** C8, amended.  When every method result is the dictionary of an
    [except] branch, the ensemble returns a result with score 0, confidence
    0, no drift, type [no_drift], no affected feature, and a metadata that
    holds the individual results only: the failure shows in their [error]
    entries and nowhere else. *)
Theorem all_methods_failed
        (self : MultiModalDriftDetector) (results : Results)
        (reference current : DataFrame) :
  all_errored results ->
  _ensemble_detection self results reference current
  = Returned (mkDriftResult false 0 "no_drift" [] 0
                            [("individual_results"%string, results)]).
Proof.
  intros Hall. unfold _ensemble_detection.
  destruct (tally_all_errored results tally0 Hall eq_refl eq_refl eq_refl)
    as (Hw & Hv & Hf).
  fold (tally results) in Hw, Hv, Hf.
  rewrite DetectorFacts.determine_drift_type_label.
  2:{ intros m r _ Hr.
      destruct (all_errored_get _ _ _ Hall Hr) as (m' & msg & ->).
      apply DetectorFacts.error_complete. }
  rewrite !all_errored_not_fired by assumption.
  cbn [Py.bind orb label].
  rewrite Hw, Hv, Hf.
  set (tw := total_weight (tally results)).
  assert (Hscore : (if Py.gt tw 0 then 0 / tw else 0) = 0).
  { unfold Py.gt. destruct (0 <? tw) eqn:E; [apply zero_div_pos; exact E | reflexivity]. }
  rewrite Hscore. reflexivity.
Qed.

Lemma all_methods_failed_witness :
  all_errored Sample.all_failed /\
  _ensemble_detection Sample.detector Sample.all_failed Sample.reference Sample.current
  = Returned (mkDriftResult false 0 "no_drift" [] 0
                            [("individual_results"%string, Sample.all_failed)]).
Proof.
  assert (H : all_errored Sample.all_failed).
  { unfold all_errored, Sample.all_failed.
    repeat (apply Forall_cons; [eexists _, _; reflexivity |]).
    apply Forall_nil. }
  split; [exact H |].
  apply (all_methods_failed Sample.detector Sample.all_failed
                            Sample.reference Sample.current H).
Defined.

End EnsembleFacts.

(* ===================================================================== *)
(** ** Failures inside the detectors                                       *)
(* ===================================================================== *)

Module FailureFacts.

Import Detector.
Import Spec.

Lemma in_keys_get {V : Type} (k : string) (d : Py.dict V) :
  In k (map fst d) -> exists v, Py.get k d = Some v.
Proof.
  induction d as [| [k' v'] d IH]; simpl; [intros [] |].
  intros Hin. destruct (String.eqb k k') eqn:Hk.
  - exists v'; reflexivity.
  - destruct Hin as [E | Hin]; [| exact (IH Hin)].
    subst k'. rewrite String.eqb_refl in Hk. discriminate Hk.
Qed.

(** *** C6: columns that do not match *)

Section Columns.

Variable L : Lib.
Variables reference current : DataFrame.





End Columns.




(** *** C2: exceptions of the routines *)

Section Escapes.

Variable L : Lib.
Variables reference current : DataFrame.

(** The two detectors with [except Exception] return whenever their
    routines raise an [Exception]: the dictionary of the [except] branch. *)
Lemma covariance_catches (e : Py.exn) :
  EllipticEnvelope_fit L reference = Raised e ->
  Py.is_Exception (Py.exn_cls e) = true ->
  _covariance_drift L reference current
  = Returned (error_result "covariance_drift" (Py.exn_str e)).
Proof.
  intros He Hc. unfold _covariance_drift. rewrite He. simpl. rewrite Hc. reflexivity.
Qed.

Lemma covariance_raises_no_exception (e : Py.exn) :
  _covariance_drift L reference current = Raised e ->
  Py.is_Exception (Py.exn_cls e) = false.
Proof.
  unfold _covariance_drift. intros H.
  exact (proj2 (try_except_caught _ _ _ _ H)).
Qed.

Lemma classifier_raises_no_exception (target : string) (e : Py.exn) :
  _classifier_drift L reference current target = Raised e ->
  Py.is_Exception (Py.exn_cls e) = false.
Proof.
  unfold _classifier_drift. intros H.
  exact (proj2 (try_except_caught _ _ _ _ H)).
Qed.

(** [_isolation_forest_drift] has no [try]: what the fit raises, it raises. *)
Lemma isolation_forest_escapes (e : Py.exn) :
  IsolationForest_fit L reference = Raised e ->
  _isolation_forest_drift L reference current = Raised e.
Proof. intros He. unfold _isolation_forest_drift. rewrite He. reflexivity. Qed.

(** [_mmd_drift] catches [ImportError] only: what the kernel routine
    raises, it raises. *)
Lemma mmd_escapes (ref_sample curr_sample : DataFrame) (e : Py.exn) :
  import_kernels L = Returned tt ->
  df_sample L reference (Nat.min 1000 (len_df reference)) = Returned ref_sample ->
  df_sample L current (Nat.min 1000 (len_df current)) = Returned curr_sample ->
  pairwise_kernels L ref_sample ref_sample = Raised e ->
  Py.is_ImportError (Py.exn_cls e) = false ->
  _mmd_drift L reference current = Raised e.
Proof.
  intros Hi Hr Hc Hk He. unfold _mmd_drift.
  apply try_except_escapes; [| exact He].
  rewrite Hi. cbn [Py.bind]. rewrite Hr. cbn [Py.bind].
  rewrite Hc. cbn [Py.bind]. rewrite Hk. reflexivity.
Qed.

End Escapes.

(** C2 fails on the code.  An exception of the kernel routine that is not
    an [ImportError] leaves [_mmd_drift], and with it [detect_drift]: no
    result with an [error] entry is made and the remaining methods do not
    run.  (The same holds for the fit of the isolation forest, see
    [isolation_forest_escapes]; only the covariance and the classifier
    detectors catch [Exception].) *)
Theorem method_failure_escapes
        (L : Lib) (self : MultiModalDriftDetector) (reference current : DataFrame)
        (target_column : option string) (ks psi : MethodResult)
        (ref_sample curr_sample : DataFrame) (e : Py.exn) :
  _ks_test_drift L reference current = Returned ks ->
  _psi_drift L reference current = Returned psi ->
  import_kernels L = Returned tt ->
  df_sample L reference (Nat.min 1000 (len_df reference)) = Returned ref_sample ->
  df_sample L current (Nat.min 1000 (len_df current)) = Returned curr_sample ->
  pairwise_kernels L ref_sample ref_sample = Raised e ->
  Py.is_ImportError (Py.exn_cls e) = false ->
  _mmd_drift L reference current = Raised e /\
  detect_drift L self reference current target_column = Raised e.
Proof.
  intros Hks Hpsi Hi Hr Hc Hk He.
  pose proof (mmd_escapes L reference current ref_sample curr_sample e Hi Hr Hc Hk He)
    as Hmmd.
  split; [exact Hmmd |].
  unfold detect_drift. rewrite Hks. cbn [Py.bind]. rewrite Hpsi. cbn [Py.bind].
  rewrite Hmmd. reflexivity.
Qed.

(** The failing input: a reference frame with a column of strings.  The
    per-column detectors skip the column; the kernel routine raises
    [TypeError] on it. *)
Lemma method_failure_escapes_witness :
  detect_drift Sample.lib Sample.detector Sample.labelled Sample.current None
  = Raised (Py.Exn Py.TypeError "unsupported operand type(s) for /: 'str' and 'float'").
Proof.
  eapply (method_failure_escapes Sample.lib Sample.detector Sample.labelled
            Sample.current None);
    vm_compute; reflexivity.
Defined.

End FailureFacts.

(* ===================================================================== *)
(** ** The service                                                         *)
(* ===================================================================== *)

Module ServiceFacts.

Import Detector.
Import Spec.

Local Open Scope float_scope.

(** *** C7: the recommendation *)

(** C7, as stated, fails on the result of the sample run (score 10.3, above
    0.8): the urgency message is not put first, it follows the retrain
    message. *)
Lemma urgency_is_not_first :
  Py.gt (drift_score Sample.result) 0.8 = true /\
  Service.generate_recommendation Sample.result
  = "Retrain model with new data distribution. 1 features affected. | URGENT: Significant drift detected. Consider immediate model retraining and evaluation. | Focus on features: x"%string /\
  urgency_first (Service.generate_recommendation Sample.result) = false.
Proof. repeat split; vm_compute; reflexivity. Qed.

(** C7, amended.  Without drift the recommendation is the no-action
    message.  With drift the parts are joined by [" | "] in this order: for
    the type [covariate_drift] the retrain message with the number of
    affected features, for the type [concept_drift] the update message; then
    the urgency message when the score is above 0.8; then, when there are
    affected features, the first five of them.  With drift, the type
    [no_drift] and no such part, the recommendation is "Monitor closely.". *)
Theorem recommendation_rules (result : DriftResult) :
  (drift_detected result = false ->
   Service.generate_recommendation result = no_action_message) /\
  (drift_detected result = true ->
   drift_type result = "covariate_drift"%string ->
   Service.generate_recommendation result
   = Py.join " | " (retrain_message (List.length (features_affected result))
                    :: common_parts result)) /\
  (drift_detected result = true ->
   drift_type result = "concept_drift"%string ->
   Service.generate_recommendation result
   = Py.join " | " (concept_message :: common_parts result)) /\
  (drift_detected result = true ->
   drift_type result = "no_drift"%string ->
   Service.generate_recommendation result
   = match common_parts result with
     | [] => "Monitor closely."%string
     | _ :: _ => Py.join " | " (common_parts result)
     end).
Proof.
  unfold Service.generate_recommendation, common_parts.
  repeat split; intros Hd; rewrite Hd; cbn [negb]; [reflexivity | | |];
    intros ->;
    match goal with
    | |- context [Py.contains ?a ?b] =>
        let v := eval vm_compute in (Py.contains a b) in
        change (Py.contains a b) with v
    end;
    match goal with
    | |- context [Py.contains ?a ?b] =>
        let v := eval vm_compute in (Py.contains a b) in
        change (Py.contains a b) with v
    end;
    cbv iota;
    destruct (Py.gt (drift_score result) 0.8);
    destruct (features_affected result); reflexivity.
Qed.

Lemma recommendation_rules_witness :
  drift_detected Sample.result = true /\
  drift_type Sample.result = "covariate_drift"%string /\
  Service.generate_recommendation Sample.result
  = Py.join " | " (retrain_message 1 :: common_parts Sample.result).
Proof.
  split; [reflexivity |]. split; [reflexivity |].
  apply (proj1 (proj2 (recommendation_rules Sample.result))); reflexivity.
Defined.

(** *** C10: the service calls the detector without a target column *)

Lemma service_detect_drift_inv (L : Lib) (E : Service.Env)
      (self self' : Service.DriftDetectionService)
      (request : Service.DriftDetectionRequest)
      (response : Service.DriftDetectionResponse) :
  Service.detect_drift L E self request = (self', Returned response) ->
  exists detector reference_df current_df result,
    detect_drift L detector reference_df current_df None = Returned result /\
    Service.drift_type response = drift_type result /\
    Service.drift_detected response = drift_detected result /\
    Service.recommendation response = Service.generate_recommendation result.
Proof.
  unfold Service.detect_drift. intros H.
  destruct (Service.DataFrame_of_records E (Service.current_data request))
    as [current_df | e]; [| discriminate H].
  destruct (Service.load_reference_data E self (Service.reference_data_id request))
    as [self1 [reference_df | e]]; [| discriminate H].
  match type of H with
  | match ?p with _ => _ end = _ => destruct p as [[self2 detector] | e]
  end; [| discriminate H].
  injection H as _ H.
  bind_inv H; rename a into result.
  bind_inv H. bind_inv H. injection H as <-.
  exists detector, reference_df, current_df, result.
  repeat split; auto.
Qed.

Lemma service_ignores_classifier (L : Lib) (E : Service.Env)
      (self : Service.DriftDetectionService) (request : Service.DriftDetectionRequest)
      (imp : outcome unit) (cat : DataFrame -> DataFrame -> outcome DataFrame)
      (cv : DataFrame -> list float -> outcome (list float)) :
  Service.detect_drift (with_classifier L imp cat cv) E self request
  = Service.detect_drift L E self request.
Proof.
  unfold Service.detect_drift.
  destruct (Service.DataFrame_of_records E (Service.current_data request));
    [| reflexivity].
  destruct (Service.load_reference_data E self (Service.reference_data_id request))
    as [self1 [reference_df | e]]; [| reflexivity].
  match goal with
  | |- match ?p with _ => _ end = _ => destruct p as [[self2 detector] | e]
  end; [| reflexivity].
  rewrite DetectorFacts.detect_drift_ignores_classifier by reflexivity.
  reflexivity.
Qed.

(** C10.  Every response of the service comes from a call of the detector
    without a target column: the classifier routines are not used, and the
    drift type of the response is [no_drift] or [covariate_drift], never
    [concept_drift] or [covariate_and_concept_drift]. *)
Theorem service_never_reports_concept_drift
        (L : Lib) (E : Service.Env) (self self' : Service.DriftDetectionService)
        (request : Service.DriftDetectionRequest)
        (response : Service.DriftDetectionResponse) :
  Service.detect_drift L E self request = (self', Returned response) ->
  (exists detector reference_df current_df result,
      detect_drift L detector reference_df current_df None = Returned result /\
      Py.get "classifier_drift" (individual_results result) = None /\
      Service.drift_type response = drift_type result) /\
  (Service.drift_type response = "no_drift"%string \/
   Service.drift_type response = "covariate_drift"%string) /\
  Service.drift_type response <> "concept_drift"%string /\
  Service.drift_type response <> "covariate_and_concept_drift"%string /\
  forall imp cat cv,
    Service.detect_drift (with_classifier L imp cat cv) E self request
    = (self', Returned response).
Proof.
  intros H.
  destruct (service_detect_drift_inv _ _ _ _ _ _ H)
    as (detector & reference_df & current_df & result & Hrun & Ht & _ & _).
  destruct (DetectorFacts.drift_type_of_run _ _ _ _ _ _ Hrun)
    as (results & ks & psi & mmd & Hm & _ & _ & _ & Htype & Hno & _).
  pose proof (Hno eq_refl) as Hclf.
  assert (Hcases : Service.drift_type response = "no_drift"%string \/
                   Service.drift_type response = "covariate_drift"%string).
  { rewrite Ht, Htype. unfold fired. rewrite Hclf.
    destruct (detected ks || detected psi || detected mmd); auto. }
  split.
  { exists detector, reference_df, current_df, result.
    split; [exact Hrun |]. split; [| exact Ht].
    unfold individual_results. rewrite Hm. exact Hclf. }
  split; [exact Hcases |].
  split; [destruct Hcases as [-> | ->]; discriminate |].
  split; [destruct Hcases as [-> | ->]; discriminate |].
  intros imp cat cv. rewrite service_ignores_classifier. exact H.
Qed.

Lemma service_never_reports_concept_drift_witness :
  Service.detect_drift Sample.lib Sample.env Sample.service Sample.request
  = (Service.mkService [("model-a"%string, mkDetector [])]
                       [("ref-1"%string, Sample.reference)],
     Returned Sample.response) /\
  (Service.drift_type Sample.response = "no_drift"%string \/
   Service.drift_type Sample.response = "covariate_drift"%string).
Proof.
  split; [vm_compute; reflexivity |].
  eapply (service_never_reports_concept_drift
            Sample.lib Sample.env Sample.service _ Sample.request Sample.response).
  vm_compute; reflexivity.
Defined.

End ServiceFacts.

(* ===================================================================== *)
(** ** More on the per-column detectors                                    *)
(* ===================================================================== *)

Module ColumnFacts.

Import Detector.
Import Spec.
Import More.

Local Open Scope float_scope.

(** *** Dictionaries: lookup after assignment *)

Section Assign.

Context {V : Type}.

Lemma get_set_same (k : string) (v : V) (d : Py.dict V) :
  Py.get k (Py.set k v d) = Some v.
Proof.
  induction d as [| [k' v'] d IH]; simpl.
  - rewrite String.eqb_refl. reflexivity.
  - destruct (String.eqb k k') eqn:E; simpl.
    + rewrite String.eqb_refl. reflexivity.
    + rewrite E. exact IH.
Qed.

Lemma get_set_other (k k' : string) (v : V) (d : Py.dict V) :
  k' <> k -> Py.get k' (Py.set k v d) = Py.get k' d.
Proof.
  intros Hne. induction d as [| [k0 v0] d IH]; simpl.
  - destruct (String.eqb k' k) eqn:E; [| reflexivity].
    apply String.eqb_eq in E. contradiction.
  - destruct (String.eqb k k0) eqn:E; simpl.
    + apply String.eqb_eq in E. subst k0.
      destruct (String.eqb k' k) eqn:E'; [| reflexivity].
      apply String.eqb_eq in E'. contradiction.
    + destruct (String.eqb k' k0); [reflexivity | exact IH].
Qed.

Lemma get_none_not_in (k : string) (d : Py.dict V) :
  Py.get k d = None <-> ~ In k (map fst d).
Proof.
  split.
  - intros H Hin. destruct (FailureFacts.in_keys_get _ _ Hin) as (v & Hv). congruence.
  - intros H. destruct (Py.get k d) as [v |] eqn:E; [| reflexivity].
    exfalso. apply H. exact (get_some_in_keys _ _ _ E).
Qed.

Lemma keys_set_fresh (k : string) (v : V) (d : Py.dict V) :
  Py.get k d = None -> map fst (Py.set k v d) = map fst d ++ [k].
Proof.
  induction d as [| [k' v'] d IH]; simpl; [reflexivity |].
  destruct (String.eqb k k'); [discriminate |].
  intros H. simpl. rewrite (IH H). reflexivity.
Qed.

Lemma in_get_nodup (k : string) (v : V) (d : Py.dict V) :
  NoDup (map fst d) -> In (k, v) d -> Py.get k d = Some v.
Proof.
  induction d as [| [k' v'] d IH]; simpl; [intros _ [] |].
  intros Hnd Hin. inversion Hnd as [| ? ? Hnot Hnd']; subst.
  destruct Hin as [E | Hin].
  - injection E as -> ->. rewrite String.eqb_refl. reflexivity.
  - destruct (String.eqb k k') eqn:E.
    + apply String.eqb_eq in E. subst k'.
      exfalso. apply Hnot. apply (in_map fst) in Hin. exact Hin.
    + exact (IH Hnd' Hin).
Qed.

End Assign.

(** A loop whose body changes nothing on the elements of the list returns
    its state. *)
Lemma for_each_unchanged {A S : Type} (body : S -> A -> outcome S) (xs : list A) (s : S) :
  (forall x, In x xs -> body s x = Returned s) ->
  for_each body xs s = Returned s.
Proof.
  induction xs as [| x xs IH]; intros H; simpl; [reflexivity |].
  rewrite (H x (or_introl eq_refl)). simpl.
  apply IH. intros y Hy. apply H. right. exact Hy.
Qed.

(** *** A reference without a numeric column *)

Section NoNumericColumn.

Variable L : Lib.
Variables reference current : DataFrame.

Hypothesis no_numeric :
  forall c s, Py.get c (cols reference) = Some s -> is_numeric (s_dtype s) = false.

Lemma ks_body_skips (st : Py.dict float * Py.dict float) (c : string) :
  In c (columns reference) -> ks_body L reference current st c = Returned st.
Proof.
  intros Hin. destruct (FailureFacts.in_keys_get _ _ Hin) as (s & Hs).
  unfold ks_body, column. rewrite (subscript_some _ _ _ Hs). cbn [Py.bind].
  rewrite (no_numeric c s Hs). reflexivity.
Qed.

Lemma psi_body_skips (st : Py.dict float) (c : string) :
  In c (columns reference) -> psi_body L reference current st c = Returned st.
Proof.
  intros Hin. destruct (FailureFacts.in_keys_get _ _ Hin) as (s & Hs).
  unfold psi_body, column. rewrite (subscript_some _ _ _ Hs). cbn [Py.bind].
  rewrite (no_numeric c s Hs). reflexivity.
Qed.

End NoNumericColumn.

(** X1.  On a reference frame with distinct column labels and without a
    [float64] or [int64] column (an empty frame, a frame of strings) the KS
    detector returns no drift, score 0 and no p-value, whatever the current
    frame holds and without calling scipy. *)
Theorem ks_without_numeric_column (L : Lib) (reference current : DataFrame) :
  NoDup (columns reference) ->
  (forall c s, Py.get c (cols reference) = Some s -> is_numeric (s_dtype s) = false) ->
  _ks_test_drift L reference current
  = Returned (mkResult (Some false) (Some 0) (Some []) None (Some "ks_test"%string) None).
Proof.
  intros _ no_numeric. unfold _ks_test_drift.
  rewrite for_each_unchanged; [reflexivity |].
  intros c Hin. apply ks_body_skips; [exact no_numeric | exact Hin].
Qed.

(** X2.  On such a reference frame, with distinct column labels, the PSI
    detector returns no drift, score 0 and no PSI score, whatever the
    current frame holds and without calling numpy. *)
Theorem psi_without_numeric_column (L : Lib) (reference current : DataFrame) :
  NoDup (columns reference) ->
  (forall c s, Py.get c (cols reference) = Some s -> is_numeric (s_dtype s) = false) ->
  _psi_drift L reference current
  = Returned (mkResult (Some false) (Some 0) None (Some []) (Some "psi"%string) None).
Proof.
  intros _ no_numeric. unfold _psi_drift.
  rewrite for_each_unchanged; [reflexivity |].
  intros c Hin. apply psi_body_skips; [exact no_numeric | exact Hin].
Qed.

Lemma strings_only_no_numeric (c : string) (s : Series) :
  Py.get c (cols strings_only) = Some s -> is_numeric (s_dtype s) = false.
Proof.
  unfold strings_only; simpl.
  destruct (String.eqb c "city"); [| discriminate].
  intros E; injection E as <-. reflexivity.
Qed.

Lemma strings_only_distinct : NoDup (columns strings_only).
Proof. repeat constructor. simpl. tauto. Qed.

Lemma ks_without_numeric_column_witness :
  NoDup (columns strings_only) /\
  _ks_test_drift Sample.lib strings_only Sample.current
  = Returned (mkResult (Some false) (Some 0) (Some []) None (Some "ks_test"%string) None).
Proof.
  split; [exact strings_only_distinct |].
  apply (ks_without_numeric_column Sample.lib strings_only Sample.current
                                   strings_only_distinct strings_only_no_numeric).
Defined.

Lemma psi_without_numeric_column_witness :
  NoDup (columns strings_only) /\
  _psi_drift Sample.lib strings_only Sample.current
  = Returned (mkResult (Some false) (Some 0) None (Some []) (Some "psi"%string) None).
Proof.
  split; [exact strings_only_distinct |].
  apply (psi_without_numeric_column Sample.lib strings_only Sample.current
                                    strings_only_distinct strings_only_no_numeric).
Defined.

(** *** The keys of the per-column scores *)

Section ScoreKeys.

Variable L : Lib.
Variables reference current : DataFrame.

Hypothesis distinct : NoDup (columns reference).

Lemma entry_get (c : string) (s : Series) :
  In (c, s) (cols reference) -> Py.get c (cols reference) = Some s.
Proof. apply in_get_nodup. exact distinct. Qed.

Lemma ks_loop_keys (entries : Py.dict Series) :
  (forall c s, In (c, s) entries -> Py.get c (cols reference) = Some s) ->
  NoDup (map fst entries) ->
  forall st st',
    (forall c, In c (map fst entries) ->
               Py.get c (fst st) = None /\ Py.get c (snd st) = None) ->
    for_each (ks_body L reference current) (map fst entries) st = Returned st' ->
    map fst (fst st') = map fst (fst st) ++ numeric_names entries /\
    map fst (snd st') = map fst (snd st) ++ numeric_names entries.
Proof.
  induction entries as [| [c s] entries IH]; intros Hget Hnd st st' Hfresh Hrun.
  - simpl in Hrun. injection Hrun as <-. unfold numeric_names; simpl.
    rewrite !app_nil_r. split; reflexivity.
  - simpl in Hrun. bind_inv Hrun. rename a into st1, Ha into Hbody.
    inversion Hnd as [| ? ? Hnot Hnd']; subst.
    assert (Hget' : forall c0 s0, In (c0, s0) entries ->
                                  Py.get c0 (cols reference) = Some s0)
      by (intros c0 s0 H0; apply Hget; right; exact H0).
    unfold ks_body, column in Hbody.
    rewrite (subscript_some _ _ _ (Hget c s (or_introl eq_refl))) in Hbody.
    cbn [Py.bind] in Hbody.
    unfold numeric_names. simpl filter. cbn [snd].
    destruct (is_numeric (s_dtype s)) eqn:Hn.
    + bind_inv Hbody. bind_inv Hbody. destruct a0 as [stat p_value].
      injection Hbody as <-.
      destruct (Hfresh c (or_introl eq_refl)) as (Hf1 & Hf2).
      destruct (IH Hget' Hnd' (Py.set c stat (fst st), Py.set c p_value (snd st)) st')
        as (K1 & K2).
      * intros c0 Hc0. cbn [fst snd].
        assert (Hne : c0 <> c) by (intros ->; contradiction).
        rewrite !get_set_other by exact Hne.
        apply Hfresh. right. exact Hc0.
      * exact Hrun.
      * cbn [fst snd] in K1, K2.
        rewrite (keys_set_fresh _ _ _ Hf1) in K1.
        rewrite (keys_set_fresh _ _ _ Hf2) in K2.
        rewrite <- app_assoc in K1, K2. simpl. split; assumption.
    + injection Hbody as <-.
      apply (IH Hget' Hnd' st st'); [| exact Hrun].
      intros c0 Hc0. apply Hfresh. right. exact Hc0.
Qed.

Lemma psi_loop_keys (entries : Py.dict Series) :
  (forall c s, In (c, s) entries -> Py.get c (cols reference) = Some s) ->
  NoDup (map fst entries) ->
  forall st st',
    (forall c, In c (map fst entries) -> Py.get c st = None) ->
    for_each (psi_body L reference current) (map fst entries) st = Returned st' ->
    map fst st' = map fst st ++ numeric_names entries.
Proof.
  induction entries as [| [c s] entries IH]; intros Hget Hnd st st' Hfresh Hrun.
  - simpl in Hrun. injection Hrun as <-. unfold numeric_names; simpl.
    rewrite app_nil_r. reflexivity.
  - simpl in Hrun. bind_inv Hrun. rename a into st1, Ha into Hbody.
    inversion Hnd as [| ? ? Hnot Hnd']; subst.
    assert (Hget' : forall c0 s0, In (c0, s0) entries ->
                                  Py.get c0 (cols reference) = Some s0)
      by (intros c0 s0 H0; apply Hget; right; exact H0).
    unfold psi_body, column in Hbody.
    rewrite (subscript_some _ _ _ (Hget c s (or_introl eq_refl))) in Hbody.
    cbn [Py.bind] in Hbody.
    unfold numeric_names. simpl filter. cbn [snd].
    destruct (is_numeric (s_dtype s)) eqn:Hn.
    + repeat (bind_inv Hbody). injection Hbody as <-.
      pose proof (Hfresh c (or_introl eq_refl)) as Hf.
      match type of Hrun with
      | for_each _ _ (Py.set c ?v st) = _ =>
          pose proof (IH Hget' Hnd' (Py.set c v st) st') as K
      end.
      rewrite K; [| | exact Hrun].
      * rewrite (keys_set_fresh _ _ _ Hf). rewrite <- app_assoc. reflexivity.
      * intros c0 Hc0.
        assert (Hne : c0 <> c) by (intros ->; contradiction).
        rewrite get_set_other by exact Hne.
        apply Hfresh. right. exact Hc0.
    + injection Hbody as <-.
      apply (IH Hget' Hnd' st st'); [| exact Hrun].
      intros c0 Hc0. apply Hfresh. right. exact Hc0.
Qed.

(** X3.  When the KS detector returns on a reference frame with distinct
    column labels, its [p_values] has one entry for each numeric column of
    the reference, in the order of the columns, and no other entry. *)
Theorem ks_p_values_keys (r : MethodResult) :
  _ks_test_drift L reference current = Returned r ->
  exists p_values,
    mr_p_values r = Some p_values /\
    map fst p_values = numeric_columns reference.
Proof.
  unfold _ks_test_drift. intros H. bind_inv H. destruct a as [scores ps].
  injection H as <-. exists ps. split; [reflexivity |].
  destruct (ks_loop_keys (cols reference) entry_get distinct ([], []) (scores, ps))
    as (_ & K); [intros c _; split; reflexivity | exact Ha |].
  exact K.
Qed.

(** X4.  When the PSI detector returns on a reference frame with distinct
    column labels, its [psi_scores] has one entry for each numeric column of
    the reference, in the order of the columns, and no other entry. *)
Theorem psi_scores_keys (r : MethodResult) :
  _psi_drift L reference current = Returned r ->
  exists psi_scores,
    mr_psi_scores r = Some psi_scores /\
    map fst psi_scores = numeric_columns reference.
Proof.
  unfold _psi_drift. intros H. bind_inv H. rename a into scores.
  injection H as <-. exists scores. split; [reflexivity |].
  exact (psi_loop_keys (cols reference) entry_get distinct [] scores
                       (fun c _ => eq_refl) Ha).
Qed.

End ScoreKeys.

Lemma sample_reference_distinct : NoDup (columns Sample.reference).
Proof. repeat constructor. simpl. tauto. Qed.

Lemma ks_p_values_keys_witness :
  _ks_test_drift Sample.lib Sample.reference Sample.current
  = Returned (mkResult (Some false) (Some 0.75)
                       (Some [("x"%string, 0.22857142857142856)]) None
                       (Some "ks_test"%string) None) /\
  exists p_values,
    Some [("x"%string, 0.22857142857142856)] = Some p_values /\
    map fst p_values = ["x"%string].
Proof.
  assert (H : _ks_test_drift Sample.lib Sample.reference Sample.current
              = Returned (mkResult (Some false) (Some 0.75)
                                   (Some [("x"%string, 0.22857142857142856)]) None
                                   (Some "ks_test"%string) None))
    by (vm_compute; reflexivity).
  split; [exact H |].
  exact (ks_p_values_keys Sample.lib Sample.reference Sample.current
                          sample_reference_distinct _ H).
Defined.

Lemma psi_scores_keys_witness :
  _psi_drift Sample.lib Sample.reference Sample.current
  = Returned (mkResult (Some true) (Some 35.085616077687433) None
                       (Some [("x"%string, 35.085616077687433)])
                       (Some "psi"%string) None) /\
  exists psi_scores,
    Some [("x"%string, 35.085616077687433)] = Some psi_scores /\
    map fst psi_scores = ["x"%string].
Proof.
  assert (H : _psi_drift Sample.lib Sample.reference Sample.current
              = Returned (mkResult (Some true) (Some 35.085616077687433) None
                                   (Some [("x"%string, 35.085616077687433)])
                                   (Some "psi"%string) None))
    by (vm_compute; reflexivity).
  split; [exact H |].
  exact (psi_scores_keys Sample.lib Sample.reference Sample.current
                         sample_reference_distinct _ H).
Defined.

End ColumnFacts.

(* ===================================================================== *)
(** ** More on the detectors and the ensemble                              *)
(* ===================================================================== *)

Module MethodFacts.

Import Detector.
Import Spec.
Import More.

Local Open Scope float_scope.

(** *** The dictionaries of the detectors *)

Section Shapes.

Variable L : Lib.
Variables reference current : DataFrame.

Lemma ks_shape (r : MethodResult) :
  _ks_test_drift L reference current = Returned r ->
  exists b s p_values,
    r = mkResult (Some b) (Some s) (Some p_values) None (Some "ks_test"%string) None.
Proof.
  unfold _ks_test_drift; intros H; bind_inv H.
  destruct a as [scores ps]; injection H as <-.
  eexists _, _, _; reflexivity.
Qed.

Lemma psi_shape (r : MethodResult) :
  _psi_drift L reference current = Returned r ->
  exists s psi_scores,
    r = mkResult (Some (existsb (fun psi => Py.gt psi 0.1) (Py.values psi_scores)))
                 (Some s) None (Some psi_scores) (Some "psi"%string) None.
Proof.
  unfold _psi_drift; intros H; bind_inv H.
  injection H as <-. eexists _, _; reflexivity.
Qed.

Lemma isolation_forest_shape (r : MethodResult) :
  _isolation_forest_drift L reference current = Returned r ->
  exists b s, r = plain_result "isolation_forest" b s.
Proof.
  unfold _isolation_forest_drift; intros H.
  repeat (bind_inv H). injection H as <-. eexists _, _; reflexivity.
Qed.

Lemma mmd_shape (r : MethodResult) :
  _mmd_drift L reference current = Returned r ->
  (exists b s, r = plain_result "mmd" b s) \/
  r = error_result "mmd" "scikit-learn not available".
Proof.
  unfold _mmd_drift, Py.try_except; intros H.
  match type of H with
  | match ?body with _ => _ end = _ => destruct body as [x | e] eqn:Hb
  end.
  - injection H as <-. repeat (bind_inv Hb). injection Hb as <-.
    left. eexists _, _; reflexivity.
  - destruct (Py.is_ImportError (Py.exn_cls e)); [| discriminate].
    injection H as <-. right; reflexivity.
Qed.

Lemma covariance_shape (r : MethodResult) :
  _covariance_drift L reference current = Returned r ->
  (exists b s, r = plain_result "covariance_drift" b s) \/
  (exists msg, r = error_result "covariance_drift" msg).
Proof.
  unfold _covariance_drift, Py.try_except; intros H.
  match type of H with
  | match ?body with _ => _ end = _ => destruct body as [x | e] eqn:Hb
  end.
  - injection H as <-. repeat (bind_inv Hb). injection Hb as <-.
    left. eexists _, _; reflexivity.
  - destruct (Py.is_Exception (Py.exn_cls e)); [| discriminate].
    injection H as <-. right; eexists; reflexivity.
Qed.

Lemma classifier_shape (target : string) (r : MethodResult) :
  _classifier_drift L reference current target = Returned r ->
  (exists b s, r = plain_result "classifier_drift" b s) \/
  (exists msg, r = error_result "classifier_drift" msg).
Proof.
  unfold _classifier_drift, Py.try_except; intros H.
  match type of H with
  | match ?body with _ => _ end = _ => destruct body as [x | e] eqn:Hb
  end.
  - injection H as <-. repeat (bind_inv Hb). injection Hb as <-.
    left. eexists _, _; reflexivity.
  - destruct (Py.is_Exception (Py.exn_cls e)); [| discriminate].
    injection H as <-. right; eexists; reflexivity.
Qed.

(** X5.  [_mmd_drift] ends in one of three ways: the dictionary of a
    finished computation, the error dictionary with the text "scikit-learn
    not available" (drift [False], score 0.0), or an exception that is not an
    [ImportError]. *)
Theorem mmd_outcomes :
  (exists b s, _mmd_drift L reference current = Returned (plain_result "mmd" b s)) \/
  _mmd_drift L reference current
  = Returned (error_result "mmd" "scikit-learn not available") \/
  (exists e, _mmd_drift L reference current = Raised e /\
             Py.is_ImportError (Py.exn_cls e) = false).
Proof.
  destruct (_mmd_drift L reference current) as [r | e] eqn:H.
  - unfold _mmd_drift, Py.try_except in H.
    match type of H with
    | match ?body with _ => _ end = _ => destruct body as [x | e] eqn:Hb
    end.
    + injection H as <-. repeat (bind_inv Hb). injection Hb as <-.
      left. eexists _, _; reflexivity.
    + destruct (Py.is_ImportError (Py.exn_cls e)); [| discriminate].
      injection H as <-. right; left; reflexivity.
  - right; right. exists e. split; [reflexivity |].
    exact (proj2 (try_except_caught _ _ _ _ H)).
Qed.

(** X6.  [_covariance_drift] never raises an [Exception]: it returns the
    dictionary of a finished computation, or an error dictionary (drift
    [False], score 0.0, the text of the exception), and only an exception
    outside [Exception] (a keyboard interrupt, a system exit) leaves it. *)
Theorem covariance_outcomes :
  (exists b s,
      _covariance_drift L reference current
      = Returned (plain_result "covariance_drift" b s)) \/
  (exists e,
      Py.is_Exception (Py.exn_cls e) = true /\
      _covariance_drift L reference current
      = Returned (error_result "covariance_drift" (Py.exn_str e))) \/
  (exists e, _covariance_drift L reference current = Raised e /\
             Py.is_Exception (Py.exn_cls e) = false).
Proof.
  destruct (_covariance_drift L reference current) as [r | e] eqn:H.
  - unfold _covariance_drift, Py.try_except in H.
    match type of H with
    | match ?body with _ => _ end = _ => destruct body as [x | e] eqn:Hb
    end.
    + injection H as <-. repeat (bind_inv Hb). injection Hb as <-.
      left. eexists _, _; reflexivity.
    + destruct (Py.is_Exception (Py.exn_cls e)) eqn:Hc; [| discriminate].
      injection H as <-. right; left. exists e. split; [exact Hc | reflexivity].
  - right; right. exists e. split; [reflexivity |].
    exact (proj2 (try_except_caught _ _ _ _ H)).
Qed.

(** X7.  [_classifier_drift] never raises an [Exception] either, whatever
    the target column and the routines do. *)
Theorem classifier_outcomes (target : string) :
  (exists b s,
      _classifier_drift L reference current target
      = Returned (plain_result "classifier_drift" b s)) \/
  (exists e,
      Py.is_Exception (Py.exn_cls e) = true /\
      _classifier_drift L reference current target
      = Returned (error_result "classifier_drift" (Py.exn_str e))) \/
  (exists e, _classifier_drift L reference current target = Raised e /\
             Py.is_Exception (Py.exn_cls e) = false).
Proof.
  destruct (_classifier_drift L reference current target) as [r | e] eqn:H.
  - unfold _classifier_drift, Py.try_except in H.
    match type of H with
    | match ?body with _ => _ end = _ => destruct body as [x | e] eqn:Hb
    end.
    + injection H as <-. repeat (bind_inv Hb). injection Hb as <-.
      left. eexists _, _; reflexivity.
    + destruct (Py.is_Exception (Py.exn_cls e)) eqn:Hc; [| discriminate].
      injection H as <-. right; left. exists e. split; [exact Hc | reflexivity].
  - right; right. exists e. split; [reflexivity |].
    exact (proj2 (try_except_caught _ _ _ _ H)).
Qed.

(** X8.  A target column that the reference or the current frame does not
    have is no failure of the run: once its imports succeed,
    [_classifier_drift] returns an error dictionary, with drift [False] and
    score 0.0. *)
Theorem classifier_without_target_column (target : string) :
  import_classifier L = Returned tt ->
  Py.get target (cols reference) = None \/ Py.get target (cols current) = None ->
  exists msg,
    _classifier_drift L reference current target
    = Returned (error_result "classifier_drift" msg).
Proof.
  intros Hi Hmiss. unfold _classifier_drift. rewrite Hi. cbn [Py.bind].
  unfold drop_column.
  destruct (Py.get target (cols reference)) as [sr |] eqn:Hr.
  - destruct Hmiss as [Hm | Hm]; [discriminate |].
    cbn [Py.bind]. rewrite Hm. eexists. reflexivity.
  - eexists. reflexivity.
Qed.

End Shapes.

Lemma classifier_without_target_column_witness :
  import_classifier Sample.lib = Returned tt /\
  Py.get "label" (cols Sample.current) = None /\
  exists msg,
    _classifier_drift Sample.lib with_target Sample.current "label"
    = Returned (error_result "classifier_drift" msg).
Proof.
  split; [reflexivity |]. split; [reflexivity |].
  apply (classifier_without_target_column Sample.lib with_target Sample.current
                                          "label" eq_refl).
  right. reflexivity.
Defined.

(** *** The individual results of a run *)

(** X9.  The individual results of a returned run are, in this order, those
    of [ks_test], [psi], [mmd], [isolation_forest], [covariance_drift], and
    then [classifier_drift] exactly when a non-empty target column was given;
    every one of them carries its own name under [method], a [drift_detected]
    flag and a [drift_score]. *)
Theorem individual_results_of_run
        (L : Lib) (self : MultiModalDriftDetector) (reference current : DataFrame)
        (target_column : option string) (d : DriftResult) :
  detect_drift L self reference current target_column = Returned d ->
  exists results,
    metadata d = [("individual_results"%string, results)] /\
    map fst results
    = ["ks_test"; "psi"; "mmd"; "isolation_forest"; "covariance_drift"]%string
        ++ (if truthy target_column then ["classifier_drift"%string] else []) /\
    Forall (fun kv => mr_method (snd kv) = Some (fst kv) /\ complete (snd kv)) results.
Proof.
  intros H.
  destruct (DetectorFacts.detect_drift_inv _ _ _ _ _ _ H)
    as (ks & psi & mmd & iforest & cov & extra
        & Hks & Hpsi & Hmmd & Hif & Hcov & Hno & Hyes & He).
  destruct (EnsembleFacts.ensemble_detection_inv _ _ _ _ _ He)
    as (_ & _ & _ & _ & Hm & _).
  exists (five ks psi mmd iforest cov ++ extra).
  split; [exact Hm |].
  destruct (ks_shape _ _ _ _ Hks) as (b1 & s1 & pv & ->).
  destruct (psi_shape _ _ _ _ Hpsi) as (s2 & sc & ->).
  destruct (isolation_forest_shape _ _ _ _ Hif) as (b4 & s4 & ->).
  assert (Hmmd' : mr_method mmd = Some "mmd"%string /\ complete mmd).
  { destruct (mmd_shape _ _ _ _ Hmmd) as [(b & s & ->) | ->];
      split; try reflexivity; eexists _, _; split; reflexivity. }
  assert (Hcov' : mr_method cov = Some "covariance_drift"%string /\ complete cov).
  { destruct (covariance_shape _ _ _ _ Hcov) as [(b & s & ->) | (msg & ->)];
      split; try reflexivity; eexists _, _; split; reflexivity. }
  assert (Hfive : Forall (fun kv => mr_method (snd kv) = Some (fst kv) /\ complete (snd kv))
                         (five (mkResult (Some b1) (Some s1) (Some pv) None
                                         (Some "ks_test"%string) None)
                               (mkResult
                                  (Some (existsb (fun psi => Py.gt psi 0.1) (Py.values sc)))
                                  (Some s2) None (Some sc) (Some "psi"%string) None)
                               mmd (plain_result "isolation_forest" b4 s4) cov)).
  { unfold five. repeat (apply Forall_cons); try apply Forall_nil; simpl;
      try assumption; split; try reflexivity; eexists _, _; split; reflexivity. }
  destruct (truthy target_column) eqn:Ht.
  - destruct (Hyes eq_refl) as (target & clf & _ & Hclf & ->).
    split; [reflexivity |].
    apply Forall_app. split; [exact Hfive |].
    apply Forall_cons; [| apply Forall_nil]. simpl.
    destruct (classifier_shape _ _ _ _ _ Hclf) as [(b & s & ->) | (msg & ->)];
      split; try reflexivity; eexists _, _; split; reflexivity.
  - rewrite (Hno eq_refl), app_nil_r.
    split; [reflexivity | exact Hfive].
Qed.

Lemma individual_results_of_run_witness :
  detect_drift Sample.lib Sample.detector Sample.reference Sample.current None
  = Returned Sample.result /\
  exists results,
    metadata Sample.result = [("individual_results"%string, results)] /\
    map fst results
    = ["ks_test"; "psi"; "mmd"; "isolation_forest"; "covariance_drift"]%string ++ [] /\
    Forall (fun kv => mr_method (snd kv) = Some (fst kv) /\ complete (snd kv)) results.
Proof.
  assert (H : detect_drift Sample.lib Sample.detector Sample.reference Sample.current None
              = Returned Sample.result) by (vm_compute; reflexivity).
  split; [exact H |].
  exact (individual_results_of_run Sample.lib Sample.detector Sample.reference
                                   Sample.current None Sample.result H).
Defined.

(** *** The tally, component by component *)

Lemma votes_step (t : Tally) (m : string) (r : MethodResult) :
  drift_votes (tally_step t (m, r))
  = if detected r then drift_votes t + weight_of m else drift_votes t.
Proof.
  unfold tally_step.
  destruct (mr_drift_score r), (mr_psi_scores r), (detected r); reflexivity.
Qed.

Lemma features_step (t : Tally) (m : string) (r : MethodResult) :
  features (tally_step t (m, r))
  = match mr_psi_scores r with
    | Some psi_scores =>
        set_update (features t)
                   (map fst (filter (fun kv => Py.gt (snd kv) 0.1) psi_scores))
    | None => features t
    end.
Proof.
  unfold tally_step.
  destruct (mr_drift_score r), (mr_psi_scores r), (detected r); reflexivity.
Qed.

Lemma existsb_eqb_in (x : string) (xs : list string) :
  existsb (String.eqb x) xs = true <-> In x xs.
Proof.
  rewrite existsb_exists. split.
  - intros (y & Hy & E). apply String.eqb_eq in E. subst y. exact Hy.
  - intros H. exists x. split; [exact H | apply String.eqb_refl].
Qed.

(** [s.update(xs)] holds what [s] held and the elements of [xs], each once. *)
Lemma set_update_in (xs s : list string) (f : string) :
  In f (set_update s xs) <-> In f s \/ In f xs.
Proof.
  unfold set_update. revert s.
  induction xs as [| x xs IH]; intros s; simpl; [tauto |].
  rewrite IH.
  destruct (existsb (String.eqb x) s) eqn:E.
  - apply existsb_eqb_in in E. split; [tauto |].
    intros [H | [-> | H]]; auto.
  - rewrite in_app_iff. simpl. tauto.
Qed.

Lemma set_update_nodup (xs s : list string) :
  NoDup s -> NoDup (set_update s xs).
Proof.
  unfold set_update. revert s.
  induction xs as [| x xs IH]; intros s Hs; simpl; [exact Hs |].
  apply IH.
  destruct (existsb (String.eqb x) s) eqn:E; [exact Hs |].
  assert (Hx : ~ In x s).
  { intros Hin. apply existsb_eqb_in in Hin. congruence. }
  clear E. induction s as [| y s IHs]; simpl.
  - constructor; [intros [] | constructor].
  - inversion Hs as [| ? ? Hy Hs']; subst. constructor.
    + rewrite in_app_iff. simpl. intros [H | [H | []]]; [contradiction |].
      subst. apply Hx. left. reflexivity.
    + apply IHs; [exact Hs' |]. intros H. apply Hx. right. exact H.
Qed.

(** The anatomy of a returned run: the PSI dictionary, the results without
    PSI scores around it, and the call of the ensemble. *)
Lemma run_anatomy (L : Lib) (self : MultiModalDriftDetector)
      (reference current : DataFrame) (target_column : option string)
      (d : DriftResult) :
  detect_drift L self reference current target_column = Returned d ->
  exists ks psi mmd iforest cov extra s psi_scores,
    _ks_test_drift L reference current = Returned ks /\
    _psi_drift L reference current = Returned psi /\
    _mmd_drift L reference current = Returned mmd /\
    psi = mkResult (Some (existsb (fun v => Py.gt v 0.1) (Py.values psi_scores)))
                   (Some s) None (Some psi_scores) (Some "psi"%string) None /\
    mr_psi_scores ks = None /\ mr_psi_scores mmd = None /\
    mr_psi_scores iforest = None /\ mr_psi_scores cov = None /\
    (extra = [] \/
     exists clf, extra = [("classifier_drift"%string, clf)] /\ mr_psi_scores clf = None) /\
    _ensemble_detection self (five ks psi mmd iforest cov ++ extra) reference current
    = Returned d.
Proof.
  intros H.
  destruct (DetectorFacts.detect_drift_inv _ _ _ _ _ _ H)
    as (ks & psi & mmd & iforest & cov & extra
        & Hks & Hpsi & Hmmd & Hif & Hcov & Hno & Hyes & He).
  destruct (psi_shape _ _ _ _ Hpsi) as (s2 & sc & Epsi).
  exists ks, psi, mmd, iforest, cov, extra, s2, sc.
  repeat (split; [assumption |]).
  split.
  { destruct (ks_shape _ _ _ _ Hks) as (b1 & s1 & pv & ->). reflexivity. }
  split.
  { destruct (mmd_shape _ _ _ _ Hmmd) as [(b & s0 & ->) | ->]; reflexivity. }
  split.
  { destruct (isolation_forest_shape _ _ _ _ Hif) as (b4 & s4 & ->). reflexivity. }
  split.
  { destruct (covariance_shape _ _ _ _ Hcov) as [(b & s0 & ->) | (msg & ->)];
      reflexivity. }
  split; [| exact He].
  destruct (truthy target_column) eqn:Ht.
  - right. destruct (Hyes eq_refl) as (target & clf & _ & Hclf & ->).
    exists clf. split; [reflexivity |].
    destruct (classifier_shape _ _ _ _ _ Hclf) as [(b & s0 & ->) | (msg & ->)];
      reflexivity.
  - left. exact (Hno eq_refl).
Qed.

(** *** The affected features *)

(** The affected features are read off the PSI scores. *)
Lemma features_of_run (L : Lib) (self : MultiModalDriftDetector)
      (reference current : DataFrame) (target_column : option string)
      (d : DriftResult) :
  detect_drift L self reference current target_column = Returned d ->
  exists s psi_scores,
    _psi_drift L reference current
    = Returned (mkResult (Some (existsb (fun v => Py.gt v 0.1) (Py.values psi_scores)))
                         (Some s) None (Some psi_scores) (Some "psi"%string) None) /\
    features_affected d
    = set_update [] (map fst (filter (fun kv => Py.gt (snd kv) 0.1) psi_scores)).
Proof.
  intros H.
  destruct (run_anatomy _ _ _ _ _ _ H)
    as (ks & psi & mmd & iforest & cov & extra & s & sc
        & _ & Hpsi & _ & Epsi & Nks & Nmmd & Nif & Ncov & Hextra & He).
  destruct (EnsembleFacts.ensemble_detection_inv _ _ _ _ _ He)
    as (_ & _ & Hf & _).
  exists s, sc. split; [rewrite <- Epsi; exact Hpsi |].
  rewrite Hf. unfold tally, five.
  destruct Hextra as [-> | (clf & -> & Nclf)]; cbn [app fold_left];
    rewrite !features_step;
    rewrite ?Nclf, Ncov, Nif, Nmmd, Nks; subst psi; reflexivity.
Qed.

Lemma high_psi_in (psi_scores : Py.dict float) (f : string) :
  In f (set_update [] (map fst (filter (fun kv => Py.gt (snd kv) 0.1) psi_scores)))
  <-> exists v, In (f, v) psi_scores /\ Py.gt v 0.1 = true.
Proof.
  rewrite set_update_in, in_map_iff. split.
  - intros [[] | ([f' v] & E & Hin)]. simpl in E. subst f'.
    apply filter_In in Hin. destruct Hin as (Hin & Hgt). exists v. auto.
  - intros (v & Hin & Hgt). right. exists (f, v). split; [reflexivity |].
    apply filter_In. auto.
Qed.

(** X10.  The affected features of a returned run are the columns whose PSI
    score is above 0.1, each listed once; the list is empty exactly when the
    PSI method reports no drift.  No other method names a feature. *)
Theorem features_affected_are_high_psi
        (L : Lib) (self : MultiModalDriftDetector) (reference current : DataFrame)
        (target_column : option string) (d : DriftResult) :
  detect_drift L self reference current target_column = Returned d ->
  exists psi psi_scores,
    _psi_drift L reference current = Returned psi /\
    mr_psi_scores psi = Some psi_scores /\
    (forall f, In f (features_affected d) <->
               exists v, In (f, v) psi_scores /\ Py.gt v 0.1 = true) /\
    NoDup (features_affected d) /\
    (features_affected d = [] <-> detected psi = false).
Proof.
  intros H.
  destruct (features_of_run _ _ _ _ _ _ H) as (s & sc & Hpsi & Hfeat).
  eexists _, sc.
  split; [exact Hpsi |]. split; [reflexivity |].
  assert (Hin : forall f, In f (features_affected d) <->
                          exists v, In (f, v) sc /\ Py.gt v 0.1 = true)
    by (intros f; rewrite Hfeat; apply high_psi_in).
  split; [exact Hin |].
  split; [rewrite Hfeat; apply set_update_nodup; constructor |].
  unfold detected; cbn [mr_drift_detected]. split.
  - intros Hnil.
    destruct (existsb (fun v => Py.gt v 0.1) (Py.values sc)) eqn:E; [| reflexivity].
    apply existsb_exists in E. destruct E as (v & Hv & Hgt).
    unfold Py.values in Hv. apply in_map_iff in Hv.
    destruct Hv as ([f v'] & E & Hv). simpl in E. subst v'.
    assert (Hf' : In f (features_affected d)) by (apply Hin; exists v; auto).
    rewrite Hnil in Hf'. destruct Hf'.
  - intros E.
    destruct (features_affected d) as [| f fs] eqn:Hfs; [reflexivity |].
    assert (Hf' : In f (f :: fs)) by (left; reflexivity).
    apply Hin in Hf'. destruct Hf' as (v & Hv & Hgt).
    assert (Ex : existsb (fun v => Py.gt v 0.1) (Py.values sc) = true).
    { apply existsb_exists. exists v. split; [| exact Hgt].
      unfold Py.values. apply in_map_iff. exists (f, v). auto. }
    congruence.
Qed.

Lemma features_affected_are_high_psi_witness :
  detect_drift Sample.lib Sample.detector Sample.reference Sample.current None
  = Returned Sample.result /\
  NoDup (features_affected Sample.result).
Proof.
  assert (H : detect_drift Sample.lib Sample.detector Sample.reference Sample.current None
              = Returned Sample.result) by (vm_compute; reflexivity).
  split; [exact H |].
  destruct (features_affected_are_high_psi Sample.lib Sample.detector Sample.reference
              Sample.current None Sample.result H)
    as (psi & sc & _ & _ & _ & Hnd & _).
  exact Hnd.
Defined.

(** X11.  On a reference frame with distinct column labels, every affected
    feature of a returned run is a numeric column of the reference. *)
Theorem features_affected_are_numeric_columns
        (L : Lib) (self : MultiModalDriftDetector) (reference current : DataFrame)
        (target_column : option string) (d : DriftResult) :
  NoDup (columns reference) ->
  detect_drift L self reference current target_column = Returned d ->
  forall f, In f (features_affected d) -> In f (numeric_columns reference).
Proof.
  intros Hnd H f Hf.
  destruct (features_of_run _ _ _ _ _ _ H) as (s & sc & Hpsi & Hfeat).
  rewrite Hfeat in Hf. apply high_psi_in in Hf. destruct Hf as (v & Hv & _).
  unfold _psi_drift in Hpsi. bind_inv Hpsi. injection Hpsi as _ _ <-.
  pose proof (ColumnFacts.psi_loop_keys L reference current (cols reference)
                (ColumnFacts.entry_get reference Hnd) Hnd [] a
                (fun c _ => eq_refl) Ha) as Hkeys.
  unfold numeric_columns. simpl in Hkeys. rewrite <- Hkeys.
  apply (in_map fst) in Hv. exact Hv.
Qed.

Lemma features_affected_are_numeric_columns_witness :
  NoDup (columns Sample.reference) /\
  detect_drift Sample.lib Sample.detector Sample.reference Sample.current None
  = Returned Sample.result /\
  (In "x"%string (features_affected Sample.result) ->
   In "x"%string (numeric_columns Sample.reference)).
Proof.
  assert (H : detect_drift Sample.lib Sample.detector Sample.reference Sample.current None
              = Returned Sample.result) by (vm_compute; reflexivity).
  split; [exact ColumnFacts.sample_reference_distinct |].
  split; [exact H |].
  exact (features_affected_are_numeric_columns
           Sample.lib Sample.detector Sample.reference Sample.current None
           Sample.result ColumnFacts.sample_reference_distinct H "x"%string).
Defined.

(** *** The vote *)

Lemma votes_fold (rs : Results) (t : Tally) :
  drift_votes (fold_left tally_step rs t)
  = fold_left (fun v kv => if detected (snd kv) then v + weight_of (fst kv) else v)
              rs (drift_votes t).
Proof.
  revert t. induction rs as [| [m r] rs IH]; intros t; cbn [fold_left];
    [reflexivity |].
  rewrite IH, votes_step. reflexivity.
Qed.

(** Without the KS test, PSI and MMD the votes stay at 0.35 or below. *)
Lemma votes_without_covariate (ks psi mmd iforest cov : MethodResult) (extra : Results) :
  detected ks = false -> detected psi = false -> detected mmd = false ->
  extra = [] \/ (exists clf, extra = [("classifier_drift"%string, clf)]) ->
  Py.gt (drift_votes (tally (five ks psi mmd iforest cov ++ extra))) 0.5 = false.
Proof.
  intros Hks Hpsi Hmmd Hextra. unfold tally. rewrite votes_fold. unfold five.
  destruct Hextra as [-> | (clf & ->)]; cbn [app fold_left fst snd];
    rewrite Hks, Hpsi, Hmmd;
    destruct (detected iforest), (detected cov); try destruct (detected clf);
    vm_compute; reflexivity.
Qed.

(** A run with drift has a covariate method that fired, and a type that
    says so. *)
Lemma covariate_method_fired
      (L : Lib) (self : MultiModalDriftDetector) (reference current : DataFrame)
      (target_column : option string) (d : DriftResult) :
  detect_drift L self reference current target_column = Returned d ->
  drift_detected d = true ->
  exists results ks psi mmd,
    metadata d = [("individual_results"%string, results)] /\
    _ks_test_drift L reference current = Returned ks /\
    _psi_drift L reference current = Returned psi /\
    _mmd_drift L reference current = Returned mmd /\
    detected ks || detected psi || detected mmd = true /\
    drift_type d = label true (fired results "classifier_drift") /\
    (truthy target_column = false -> Py.get "classifier_drift" results = None).
Proof.
  intros H Hd.
  destruct (run_anatomy _ _ _ _ _ _ H)
    as (ks & psi & mmd & iforest & cov & extra & s & sc
        & Hks & Hpsi & Hmmd & _ & _ & _ & _ & _ & Hextra & He).
  destruct (EnsembleFacts.ensemble_detection_inv _ _ _ _ _ He) as (Hv & _).
  assert (Hfam : detected ks || detected psi || detected mmd = true).
  { destruct (detected ks) eqn:E1; [reflexivity |].
    destruct (detected psi) eqn:E2; [reflexivity |].
    destruct (detected mmd) eqn:E3; [reflexivity |].
    rewrite Hd in Hv.
    rewrite (votes_without_covariate ks psi mmd iforest cov extra E1 E2 E3) in Hv;
      [discriminate |].
    destruct Hextra as [-> | (clf & -> & _)]; [left; reflexivity | right; eauto]. }
  destruct (DetectorFacts.drift_type_of_run _ _ _ _ _ _ H)
    as (results & ks' & psi' & mmd' & Hm & Hks' & Hpsi' & Hmmd' & Ht & Hno & _).
  assert (ks' = ks) by congruence. assert (psi' = psi) by congruence.
  assert (mmd' = mmd) by congruence. subst ks' psi' mmd'.
  exists results, ks, psi, mmd.
  repeat (split; [assumption |]).
  split; [| exact Hno]. rewrite Ht, Hfam. reflexivity.
Qed.

(** X12.  A returned run reports drift only when at least one of the KS
    test, PSI and MMD reports drift: the isolation forest, the covariance
    method and the classifier together weigh 0.35, which is not above 0.5.
    Hence a result with drift has the type [covariate_drift] or
    [covariate_and_concept_drift], never [no_drift] or [concept_drift]. *)
Theorem drift_needs_covariate_method
        (L : Lib) (self : MultiModalDriftDetector) (reference current : DataFrame)
        (target_column : option string) (d : DriftResult) :
  detect_drift L self reference current target_column = Returned d ->
  drift_detected d = true ->
  (exists ks psi mmd,
      _ks_test_drift L reference current = Returned ks /\
      _psi_drift L reference current = Returned psi /\
      _mmd_drift L reference current = Returned mmd /\
      detected ks || detected psi || detected mmd = true) /\
  (drift_type d = "covariate_drift"%string \/
   drift_type d = "covariate_and_concept_drift"%string).
Proof.
  intros H Hd.
  destruct (covariate_method_fired _ _ _ _ _ _ H Hd)
    as (results & ks & psi & mmd & _ & Hks & Hpsi & Hmmd & Hfam & Ht & _).
  split; [exists ks, psi, mmd; auto |].
  rewrite Ht.
  destruct (fired results "classifier_drift"); [right | left]; reflexivity.
Qed.

Lemma drift_needs_covariate_method_witness :
  detect_drift Sample.lib Sample.detector Sample.reference Sample.current None
  = Returned Sample.result /\
  drift_detected Sample.result = true /\
  (drift_type Sample.result = "covariate_drift"%string \/
   drift_type Sample.result = "covariate_and_concept_drift"%string).
Proof.
  assert (H : detect_drift Sample.lib Sample.detector Sample.reference Sample.current None
              = Returned Sample.result) by (vm_compute; reflexivity).
  split; [exact H |]. split; [reflexivity |].
  exact (proj2 (drift_needs_covariate_method
                  Sample.lib Sample.detector Sample.reference Sample.current None
                  Sample.result H eq_refl)).
Defined.

(** *** A result without its flag *)

(** X13.  The loop of the ensemble reads the flag with a default, the drift
    type does not: when the KS entry of the results has no [drift_detected]
    key, [_ensemble_detection] raises [KeyError] for that key and returns no
    result. *)
Theorem ensemble_needs_drift_detected_key
        (self : MultiModalDriftDetector) (results : Results)
        (reference current : DataFrame) (r : MethodResult) :
  Py.get "ks_test" results = Some r ->
  mr_drift_detected r = None ->
  _determine_drift_type results reference current
  = Raised (Py.Exn Py.KeyError "'drift_detected'") /\
  _ensemble_detection self results reference current
  = Raised (Py.Exn Py.KeyError "'drift_detected'").
Proof.
  intros Hr Hn.
  assert (Ht : _determine_drift_type results reference current
               = Raised (Py.Exn Py.KeyError "'drift_detected'")).
  { unfold _determine_drift_type. cbn [any_detected]. rewrite Hr, Hn. reflexivity. }
  split; [exact Ht |].
  unfold _ensemble_detection. rewrite Ht. reflexivity.
Qed.

Lemma ensemble_needs_drift_detected_key_witness :
  Py.get "ks_test" flagless
  = Some (mkResult None (Some 0.5) None None (Some "ks_test"%string) None) /\
  _ensemble_detection Sample.detector flagless Sample.reference Sample.current
  = Raised (Py.Exn Py.KeyError "'drift_detected'").
Proof.
  split; [reflexivity |].
  apply (ensemble_needs_drift_detected_key
           Sample.detector flagless Sample.reference Sample.current
           (mkResult None (Some 0.5) None None (Some "ks_test"%string) None));
    reflexivity.
Defined.

End MethodFacts.

(* ===================================================================== *)
(** ** More on the service                                                 *)
(* ===================================================================== *)

Module ServiceMore.

Import Detector.
Import Spec.
Import More.

Local Open Scope float_scope.

(** *** The cache of reference frames *)

(** X14.  [load_reference_data] answers from the cache when the id is in
    it, without asking MLflow and without changing the service; otherwise it
    stores the placeholder frame, an empty one, under the id.  Either way the
    frame it returned is what a second call returns, the other ids of the
    cache keep their frames, and the detectors are untouched. *)
Theorem load_reference_data_caches
        (E : Service.Env) (self self' : Service.DriftDetectionService)
        (reference_data_id : string) (df : DataFrame) :
  Service.load_reference_data E self reference_data_id = (self', Returned df) ->
  Py.get reference_data_id (Service.reference_data_cache self') = Some df /\
  Service.load_reference_data E self' reference_data_id = (self', Returned df) /\
  (forall cached,
      Py.get reference_data_id (Service.reference_data_cache self) = Some cached ->
      df = cached /\ self' = self) /\
  (Py.get reference_data_id (Service.reference_data_cache self) = None ->
   df = mkFrame 0 []) /\
  (forall id, id <> reference_data_id ->
              Py.get id (Service.reference_data_cache self')
              = Py.get id (Service.reference_data_cache self)) /\
  Service.detectors self' = Service.detectors self.
Proof.
  unfold Service.load_reference_data.
  destruct (Py.get reference_data_id (Service.reference_data_cache self))
    as [cached |] eqn:Hc.
  - intros H. injection H as <- <-. rewrite Hc.
    split; [reflexivity |]. split; [reflexivity |].
    split; [intros cached' E'; injection E' as <-; split; reflexivity |].
    split; [discriminate |].
    split; reflexivity.
  - destruct (Service.MlflowClient E) as [[] | e]; [| discriminate].
    intros H. injection H as <- <-. cbn [Service.reference_data_cache Service.detectors].
    rewrite ColumnFacts.get_set_same.
    split; [reflexivity |]. split; [reflexivity |].
    split; [discriminate |].
    split; [reflexivity |].
    split; [| reflexivity].
    intros id Hne. apply ColumnFacts.get_set_other. exact Hne.
Qed.

Lemma load_reference_data_caches_witness :
  Service.load_reference_data Sample.env drift_service "ref-2"
  = (Service.mkService [] [("ref-2"%string, mkFrame 0 [])], Returned (mkFrame 0 [])) /\
  Service.load_reference_data Sample.env
    (Service.mkService [] [("ref-2"%string, mkFrame 0 [])]) "ref-2"
  = (Service.mkService [] [("ref-2"%string, mkFrame 0 [])], Returned (mkFrame 0 [])).
Proof.
  split; [reflexivity |].
  apply (load_reference_data_caches Sample.env drift_service
           (Service.mkService [] [("ref-2"%string, mkFrame 0 [])]) "ref-2"
           (mkFrame 0 [])).
  reflexivity.
Defined.

(** *** What a request leaves behind *)

Lemma load_keeps (E : Service.Env) (self self' : Service.DriftDetectionService)
      (reference_data_id : string) (out : outcome DataFrame) :
  Service.load_reference_data E self reference_data_id = (self', out) ->
  Service.detectors self' = Service.detectors self /\
  (forall id df, Py.get id (Service.reference_data_cache self) = Some df ->
                 Py.get id (Service.reference_data_cache self') = Some df) /\
  (forall df, out = Returned df ->
              Py.get reference_data_id (Service.reference_data_cache self') = Some df).
Proof.
  unfold Service.load_reference_data.
  destruct (Py.get reference_data_id (Service.reference_data_cache self))
    as [cached |] eqn:Hc.
  - intros H. injection H as <- <-.
    repeat split; auto. intros df E'. injection E' as <-. exact Hc.
  - destruct (Service.MlflowClient E) as [[] | e]; intros H; injection H as <- <-.
    + cbn [Service.reference_data_cache Service.detectors].
      repeat split; auto.
      * intros id df Hid.
        rewrite ColumnFacts.get_set_other; [exact Hid |].
        intros ->. congruence.
      * intros df E'. injection E' as <-. apply ColumnFacts.get_set_same.
    + repeat split; auto. intros df E'. discriminate E'.
Qed.

(** X15.  A request never removes or replaces anything in the service: a
    detector that is registered for a model name, and a frame that is cached
    for a reference id, are still there after the request, whether it
    returned or raised.  So the detector of a model is the one its first
    request created, and later configurations for that name are not used.
    After a response, the detector of the request's model and the frame of
    its reference id are registered. *)
Theorem request_keeps_registrations
        (L : Lib) (E : Service.Env) (self self' : Service.DriftDetectionService)
        (request : Service.DriftDetectionRequest)
        (out : outcome Service.DriftDetectionResponse) :
  Service.detect_drift L E self request = (self', out) ->
  (forall name detector,
      Py.get name (Service.detectors self) = Some detector ->
      Py.get name (Service.detectors self') = Some detector) /\
  (forall id df,
      Py.get id (Service.reference_data_cache self) = Some df ->
      Py.get id (Service.reference_data_cache self') = Some df) /\
  (forall response,
      out = Returned response ->
      (exists detector,
          Py.get (Service.model_name request) (Service.detectors self') = Some detector) /\
      (exists df,
          Py.get (Service.reference_data_id request) (Service.reference_data_cache self')
          = Some df)).
Proof.
  unfold Service.detect_drift.
  destruct (Service.DataFrame_of_records E (Service.current_data request))
    as [current_df | e].
  2:{ intros H. injection H as <- <-. repeat split; auto; discriminate. }
  destruct (Service.load_reference_data E self (Service.reference_data_id request))
    as [self1 out1] eqn:Hload.
  destruct (load_keeps _ _ _ _ _ Hload) as (Hdet & Hcache & Hid).
  destruct out1 as [reference_df | e].
  2:{ intros H. injection H as <- <-.
      split; [intros name det Hn; rewrite Hdet; exact Hn |].
      split; [exact Hcache |]. discriminate. }
  destruct (Py.get (Service.model_name request) (Service.detectors self1))
    as [detector |] eqn:Hget.
  - intros H. injection H as <- _.
    split; [intros name det Hn; rewrite Hdet; exact Hn |].
    split; [exact Hcache |].
    intros response _. split; [eauto |].
    exists reference_df. apply Hid. reflexivity.
  - destruct (Service.MultiModalDriftDetector_name E) as [[] | e]; cbn [Py.bind].
    + intros H. injection H as <- _.
      cbn [Service.detectors Service.reference_data_cache].
      split.
      * intros name det Hn. rewrite <- Hdet in Hn.
        rewrite ColumnFacts.get_set_other; [exact Hn |].
        intros ->. congruence.
      * split; [exact Hcache |].
        intros response _. split.
        -- eexists. apply ColumnFacts.get_set_same.
        -- exists reference_df. apply Hid. reflexivity.
    + intros H. injection H as <- <-.
      split; [intros name det Hn; rewrite Hdet; exact Hn |].
      split; [exact Hcache |]. discriminate.
Qed.

Lemma request_keeps_registrations_witness :
  Service.detect_drift Sample.lib Sample.env Sample.service Sample.request
  = (Service.mkService [("model-a"%string, mkDetector [])]
                       [("ref-1"%string, Sample.reference)],
     Returned Sample.response) /\
  (Py.get "ref-1" (Service.reference_data_cache Sample.service) = Some Sample.reference ->
   Py.get "ref-1"
          (Service.reference_data_cache
             (Service.mkService [("model-a"%string, mkDetector [])]
                                [("ref-1"%string, Sample.reference)]))
   = Some Sample.reference).
Proof.
  assert (H : Service.detect_drift Sample.lib Sample.env Sample.service Sample.request
              = (Service.mkService [("model-a"%string, mkDetector [])]
                                   [("ref-1"%string, Sample.reference)],
                 Returned Sample.response)) by (vm_compute; reflexivity).
  split; [exact H |].
  exact (proj1 (proj2 (request_keeps_registrations
                         Sample.lib Sample.env Sample.service _ Sample.request _ H))
               "ref-1"%string Sample.reference).
Defined.

(** *** The collaborators *)

Lemma log_to_mlflow_returns (E : Service.Env) (model_name : string) (result : DriftResult) :
  (forall e, Service.mlflow_log_run E model_name result = Raised e ->
             Py.is_Exception (Py.exn_cls e) = true) ->
  Service.log_to_mlflow E model_name result = Returned tt.
Proof.
  intros Hexc. unfold Service.log_to_mlflow, Py.try_except.
  destruct (Service.mlflow_log_run E model_name result) as [[] | e] eqn:Hl;
    [reflexivity |].
  rewrite (Hexc e eq_refl). reflexivity.
Qed.

(** X16.  The MLflow run log cannot fail a request: whether the log
    succeeds or raises an [Exception], the service ends in the same state
    with the same response. *)
Theorem mlflow_failure_is_harmless
        (L : Lib) (E : Service.Env) (self : Service.DriftDetectionService)
        (request : Service.DriftDetectionRequest)
        (log log' : string -> DriftResult -> outcome unit) :
  (forall name result e, log name result = Raised e ->
                         Py.is_Exception (Py.exn_cls e) = true) ->
  (forall name result e, log' name result = Raised e ->
                         Py.is_Exception (Py.exn_cls e) = true) ->
  Service.detect_drift L (with_mlflow E log) self request
  = Service.detect_drift L (with_mlflow E log') self request.
Proof.
  intros Hlog Hlog'. unfold Service.detect_drift.
  change (Service.DataFrame_of_records (with_mlflow E log))
    with (Service.DataFrame_of_records E).
  change (Service.DataFrame_of_records (with_mlflow E log'))
    with (Service.DataFrame_of_records E).
  destruct (Service.DataFrame_of_records E (Service.current_data request))
    as [current_df | e]; [| reflexivity].
  change (Service.load_reference_data (with_mlflow E log) self
                                      (Service.reference_data_id request))
    with (Service.load_reference_data E self (Service.reference_data_id request)).
  change (Service.load_reference_data (with_mlflow E log') self
                                      (Service.reference_data_id request))
    with (Service.load_reference_data E self (Service.reference_data_id request)).
  destruct (Service.load_reference_data E self (Service.reference_data_id request))
    as [self1 [reference_df | e]]; [| reflexivity].
  change (Service.MultiModalDriftDetector_name (with_mlflow E log))
    with (Service.MultiModalDriftDetector_name E).
  change (Service.MultiModalDriftDetector_name (with_mlflow E log'))
    with (Service.MultiModalDriftDetector_name E).
  match goal with
  | |- match ?p with _ => _ end = _ => destruct p as [[self2 detector] | e]
  end; [| reflexivity].
  f_equal.
  destruct (detect_drift L detector reference_df current_df None) as [result | e];
    [| reflexivity].
  cbn [Py.bind].
  change (Service.update_metrics (with_mlflow E log))
    with (Service.update_metrics E).
  change (Service.update_metrics (with_mlflow E log'))
    with (Service.update_metrics E).
  destruct (Service.update_metrics E (Service.model_name request) result
                                   (columns current_df)) as [[] | e];
    [| reflexivity].
  cbn [Py.bind].
  rewrite !log_to_mlflow_returns; [reflexivity | |].
  - intros e He. exact (Hlog' _ _ e He).
  - intros e He. exact (Hlog _ _ e He).
Qed.

Lemma mlflow_failure_is_harmless_witness :
  Service.detect_drift Sample.lib (with_mlflow Sample.env failing_log)
                       Sample.service Sample.request
  = Service.detect_drift Sample.lib (with_mlflow Sample.env (fun _ _ => Returned tt))
                         Sample.service Sample.request.
Proof.
  apply (mlflow_failure_is_harmless Sample.lib Sample.env Sample.service Sample.request
                                    failing_log (fun _ _ => Returned tt)).
  - intros name result e H. unfold failing_log in H. injection H as <-. reflexivity.
  - intros name result e H. discriminate H.
Defined.

(** X17.  The gauges can fail a request: when the update of a gauge raises,
    the request raises, although the detection itself had returned a result;
    no request gets a response from a service whose gauges raise. *)
Theorem gauge_failure_fails_the_request
        (L : Lib) (E : Service.Env) (self self' : Service.DriftDetectionService)
        (request : Service.DriftDetectionRequest)
        (out : outcome Service.DriftDetectionResponse) :
  (forall name labels value, exists e, Service.gauge_set E name labels value = Raised e) ->
  Service.detect_drift L E self request = (self', out) ->
  exists e, out = Raised e.
Proof.
  intros Hg. unfold Service.detect_drift.
  destruct (Service.DataFrame_of_records E (Service.current_data request))
    as [current_df | e]; [| intros H; injection H as _ <-; eauto].
  destruct (Service.load_reference_data E self (Service.reference_data_id request))
    as [self1 [reference_df | e]]; [| intros H; injection H as _ <-; eauto].
  match goal with
  | |- match ?p with _ => _ end = _ -> _ => destruct p as [[self2 detector] | e]
  end; [| intros H; injection H as _ <-; eauto].
  intros H. injection H as _ <-.
  destruct (detect_drift L detector reference_df current_df None) as [result | e];
    cbn [Py.bind]; [| eauto].
  unfold Service.update_metrics.
  destruct (Hg "drift_score"%string [Service.model_name request] (drift_score result))
    as (e & ->).
  cbn [Py.bind]. eauto.
Qed.

Lemma gauge_failure_fails_the_request_witness :
  Service.detect_drift Sample.lib failing_gauges Sample.service Sample.request
  = (Service.mkService [("model-a"%string, mkDetector [])]
                       [("ref-1"%string, Sample.reference)],
     Raised (Py.Exn Py.ValueError "Incorrect label names")) /\
  exists e, Raised (Py.Exn Py.ValueError "Incorrect label names")
            = @Raised Service.DriftDetectionResponse e.
Proof.
  assert (H : Service.detect_drift Sample.lib failing_gauges Sample.service Sample.request
              = (Service.mkService [("model-a"%string, mkDetector [])]
                                   [("ref-1"%string, Sample.reference)],
                 Raised (Py.Exn Py.ValueError "Incorrect label names")))
    by (vm_compute; reflexivity).
  split; [exact H |].
  apply (gauge_failure_fails_the_request
           Sample.lib failing_gauges Sample.service
           (Service.mkService [("model-a"%string, mkDetector [])]
                              [("ref-1"%string, Sample.reference)])
           Sample.request
           (Raised (Py.Exn Py.ValueError "Incorrect label names")));
    [| exact H].
  intros name labels value. eexists. reflexivity.
Defined.

(** *** The recommendation *)

(** X18.  The recommendation is the no-action message exactly when the
    result reports no drift: every text made for a result with drift is a
    different one. *)
Theorem no_action_iff_no_drift (result : DriftResult) :
  Service.generate_recommendation result = no_action_message <->
  drift_detected result = false.
Proof.
  unfold Service.generate_recommendation, no_action_message.
  destruct (drift_detected result); cbn [negb]; split;
    try reflexivity; try discriminate.
  destruct (Py.contains "covariate_drift" (drift_type result)),
    (Py.contains "concept_drift" (drift_type result)),
    (Py.gt (drift_score result) 0.8),
    (features_affected result);
    cbn [app Py.join String.concat String.append]; intros H; discriminate H.
Qed.

(** The response is made of the fields of the result of the run. *)
Lemma service_response_inv (L : Lib) (E : Service.Env)
      (self self' : Service.DriftDetectionService)
      (request : Service.DriftDetectionRequest)
      (response : Service.DriftDetectionResponse) :
  Service.detect_drift L E self request = (self', Returned response) ->
  exists self1 detector reference_df current_df result,
    Service.load_reference_data E self (Service.reference_data_id request)
    = (self1, Returned reference_df) /\
    detect_drift L detector reference_df current_df None = Returned result /\
    response
    = Service.mkResponse (drift_detected result) (drift_score result)
                         (drift_type result) (features_affected result)
                         (confidence result)
                         (Service.generate_recommendation result).
Proof.
  unfold Service.detect_drift. intros H.
  destruct (Service.DataFrame_of_records E (Service.current_data request))
    as [current_df | e]; [| discriminate H].
  destruct (Service.load_reference_data E self (Service.reference_data_id request))
    as [self1 [reference_df | e]] eqn:Hload; [| discriminate H].
  match type of H with
  | match ?p with _ => _ end = _ => destruct p as [[self2 detector] | e]
  end; [| discriminate H].
  injection H as _ H.
  bind_inv H; rename a into result.
  bind_inv H. bind_inv H. injection H as <-.
  exists self1, detector, reference_df, current_df, result.
  repeat split; auto.
Qed.

(** Without the KS test and PSI the votes stay at 0.45 or below. *)
Lemma votes_without_ks_psi (ks psi mmd iforest cov : MethodResult) :
  detected ks = false -> detected psi = false ->
  Py.gt (drift_votes (tally (five ks psi mmd iforest cov))) 0.5 = false.
Proof.
  intros Hks Hpsi. unfold tally. rewrite MethodFacts.votes_fold. unfold five.
  cbn [fold_left fst snd]. rewrite Hks, Hpsi.
  destruct (detected mmd), (detected iforest), (detected cov);
    vm_compute; reflexivity.
Qed.

(** On the placeholder frame a run without a target column reports no
    drift and no feature. *)
Lemma placeholder_run (L : Lib) (detector : MultiModalDriftDetector)
      (current_df : DataFrame) (result : DriftResult) :
  detect_drift L detector (mkFrame 0 []) current_df None = Returned result ->
  drift_detected result = false /\ features_affected result = [].
Proof.
  intros H.
  destruct (DetectorFacts.detect_drift_inv _ _ _ _ _ _ H)
    as (ks & psi & mmd & iforest & cov & extra
        & Hks & Hpsi & _ & _ & _ & Hno & _ & He).
  rewrite (Hno eq_refl), app_nil_r in He.
  injection Hks as <-. injection Hpsi as <-.
  destruct (EnsembleFacts.ensemble_detection_inv _ _ _ _ _ He)
    as (Hd & _ & Hf & _).
  split.
  - rewrite Hd. apply votes_without_ks_psi; reflexivity.
  - destruct (MethodFacts.features_of_run _ _ _ _ _ _ H) as (s & sc & Hpsi & Hfeat).
    injection Hpsi as _ _ Hsc. subst sc. exact Hfeat.
Qed.

Lemma request_on_placeholders (L : Lib) (E : Service.Env)
      (self self' : Service.DriftDetectionService)
      (request : Service.DriftDetectionRequest)
      (out : outcome Service.DriftDetectionResponse) :
  placeholders_only self ->
  Service.detect_drift L E self request = (self', out) ->
  placeholders_only self' /\
  forall response,
    out = Returned response ->
    Service.drift_detected response = false /\
    Service.features_affected response = [] /\
    Service.recommendation response = no_action_message.
Proof.
  intros Hp H.
  assert (Hload : forall self1 o,
             Service.load_reference_data E self (Service.reference_data_id request)
             = (self1, o) ->
             placeholders_only self1 /\
             forall df, o = Returned df -> df = mkFrame 0 []).
  { unfold Service.load_reference_data. intros self1 o.
    destruct (Py.get (Service.reference_data_id request)
                     (Service.reference_data_cache self)) as [cached |] eqn:Hc.
    - intros E1. injection E1 as <- <-. split; [exact Hp |].
      intros df E2. injection E2 as <-. exact (Hp _ _ Hc).
    - destruct (Service.MlflowClient E) as [[] | e]; intros E1; injection E1 as <- <-.
      + split; [| intros df E2; injection E2 as <-; reflexivity].
        intros id df. cbn [Service.reference_data_cache].
        destruct (String.eqb id (Service.reference_data_id request)) eqn:Eid.
        * apply String.eqb_eq in Eid. subst id.
          rewrite ColumnFacts.get_set_same. intros E2. injection E2 as <-. reflexivity.
        * rewrite ColumnFacts.get_set_other.
          -- apply Hp.
          -- intros ->. rewrite String.eqb_refl in Eid. discriminate.
      + split; [exact Hp | discriminate]. }
  split.
  - revert H. unfold Service.detect_drift.
    destruct (Service.DataFrame_of_records E (Service.current_data request))
      as [current_df | e]; [| intros H; injection H as <- _; exact Hp].
    destruct (Service.load_reference_data E self (Service.reference_data_id request))
      as [self1 o1] eqn:Hl.
    destruct (Hload _ _ eq_refl) as (Hp1 & _).
    destruct o1 as [reference_df | e]; [| intros H; injection H as <- _; exact Hp1].
    destruct (Py.get (Service.model_name request) (Service.detectors self1)).
    + intros H. injection H as <- _. exact Hp1.
    + destruct (Service.MultiModalDriftDetector_name E) as [[] | e]; cbn [Py.bind];
        intros H; injection H as <- _; exact Hp1.
  - intros response ->.
    destruct (service_response_inv _ _ _ _ _ _ H)
      as (self1 & detector & reference_df & current_df & result & Hl & Hrun & ->).
    destruct (Hload _ _ Hl) as (_ & Hdf).
    rewrite (Hdf reference_df eq_refl) in Hrun.
    destruct (placeholder_run _ _ _ _ Hrun) as (Hd & Hf).
    cbn [Service.drift_detected Service.features_affected Service.recommendation].
    split; [exact Hd |]. split; [exact Hf |].
    unfold Service.generate_recommendation. rewrite Hd. reflexivity.
Qed.

(** X19.  A service that starts with an empty cache never reports drift:
    its cache is only ever filled with the empty placeholder frame, on which
    the KS test and PSI find no column, and MMD, the isolation forest and the
    covariance method together weigh 0.45.  Whatever the requests, the
    library and the collaborators, every response has drift [False], no
    affected feature and the no-action recommendation. *)
Theorem fresh_service_never_reports_drift
        (L : Lib) (E : Service.Env) (requests : list Service.DriftDetectionRequest) :
  Forall (fun out =>
            forall response,
              out = Returned response ->
              Service.drift_detected response = false /\
              Service.features_affected response = [] /\
              Service.recommendation response = no_action_message)
         (snd (serve L E drift_service requests)).
Proof.
  assert (Hp : placeholders_only drift_service) by (intros id df H; discriminate H).
  revert Hp. generalize drift_service as service.
  induction requests as [| request rest IH]; intros service Hp; cbn [serve].
  - apply Forall_nil.
  - unfold detect_drift_endpoint.
    destruct (Service.detect_drift L E service request) as [service' out] eqn:H.
    destruct (request_on_placeholders _ _ _ _ _ _ Hp H) as (Hp' & Hout).
    specialize (IH service' Hp').
    destruct (serve L E service' rest) as [final outs].
    cbn [snd] in *. apply Forall_cons; [exact Hout | exact IH].
Qed.

(** X20.  A response of the service that reports drift has the type
    [covariate_drift], and its recommendation starts with the retrain
    message naming the number of affected features, followed by the urgency
    message when the score is above 0.8 and by up to five feature names when
    there are any.  The service never answers "Monitor closely." and never
    gives the concept-drift advice. *)
Theorem service_drift_recommends_retraining
        (L : Lib) (E : Service.Env) (self self' : Service.DriftDetectionService)
        (request : Service.DriftDetectionRequest)
        (response : Service.DriftDetectionResponse) :
  Service.detect_drift L E self request = (self', Returned response) ->
  Service.drift_detected response = true ->
  Service.drift_type response = "covariate_drift"%string /\
  Service.recommendation response
  = Py.join " | "
      (retrain_message (List.length (Service.features_affected response))
       :: (if Py.gt (Service.drift_score response) 0.8 then [urgent_message] else [])
       ++ match Service.features_affected response with
          | [] => []
          | _ :: _ => [focus_message (Service.features_affected response)]
          end).
Proof.
  intros H Hd.
  destruct (service_response_inv _ _ _ _ _ _ H)
    as (self1 & detector & reference_df & current_df & result & _ & Hrun & ->).
  cbn [Service.drift_detected] in Hd.
  cbn [Service.drift_type Service.recommendation Service.features_affected
       Service.drift_score].
  destruct (MethodFacts.covariate_method_fired _ _ _ _ _ _ Hrun Hd)
    as (results & ks & psi & mmd & _ & _ & _ & _ & _ & Ht & Hno).
  unfold fired in Ht. rewrite (Hno eq_refl) in Ht. cbn [label] in Ht.
  split; [exact Ht |].
  unfold Service.generate_recommendation. rewrite Hd, Ht. cbn [negb].
  change (Py.contains "covariate_drift" "covariate_drift") with true.
  change (Py.contains "concept_drift" "covariate_drift") with false.
  cbv iota.
  destruct (Py.gt (drift_score result) 0.8);
    destruct (features_affected result); reflexivity.
Qed.

Lemma service_drift_recommends_retraining_witness :
  Service.detect_drift Sample.lib Sample.env Sample.service Sample.request
  = (Service.mkService [("model-a"%string, mkDetector [])]
                       [("ref-1"%string, Sample.reference)],
     Returned Sample.response) /\
  Service.drift_detected Sample.response = true /\
  Service.drift_type Sample.response = "covariate_drift"%string.
Proof.
  assert (H : Service.detect_drift Sample.lib Sample.env Sample.service Sample.request
              = (Service.mkService [("model-a"%string, mkDetector [])]
                                   [("ref-1"%string, Sample.reference)],
                 Returned Sample.response)) by (vm_compute; reflexivity).
  split; [exact H |]. split; [reflexivity |].
  exact (proj1 (service_drift_recommends_retraining
                  Sample.lib Sample.env Sample.service _ Sample.request
                  Sample.response H eq_refl)).
Defined.

End ServiceMore.

(* ===================================================================== *)
(** ** A frame against itself                                              *)
(* ===================================================================== *)

Module IdentityFacts.

Import Detector.
Import Spec.
Import More.

Local Open Scope float_scope.






End IdentityFacts.
